(** * autolysis.py: the report-generation pipeline

    A shallow embedding of [autolysis.py] (load a CSV, analyse it, draw up to
    two charts, ask a chat-completion endpoint for a narrative, write
    README.md) and the properties of its sequencing, retry and failure
    behaviour.

    The program is effectful glue around libraries.  Effects are threaded
    through an explicit state-and-exception monad [M]; the libraries
    themselves (pandas statistics and rendering to text, matplotlib/seaborn,
    the HTTP transport, the filesystem's refusals) are external
    collaborators: their pure functions are fields of [Libs], their
    behaviour at run time is fixed by a [World]. *)

From Stdlib Require Import Ascii.
From stdpp Require Import gmap strings list pretty.

Local Open Scope string_scope.

(** ** Python values coming out of [response.json()] *)

#[local] Set Warnings "-register-all".

Inductive json :=
  | JNull
  | JBool (b : bool)
  | JNum (lexeme : string)
  | JStr (s : string)
  | JArr (items : list json)
  | JObj (fields : list (string * json)).

(** ** Exceptions and the three ways a Python call can end *)

(** [Exn cls msg] is an instance of the [Exception] subclass [cls];
    [RetryError] is tenacity's, wrapping the last attempt's exception. *)
Inductive exn :=
  | Exn (cls : string) (msg : string)
  | RetryError (last_attempt : exn).

Fixpoint exn_str (e : exn) : string :=
  match e with
  | Exn _ msg => msg
  | RetryError last => "RetryError[" +:+ exn_str last +:+ "]"
  end.

(** [SysExit] is [SystemExit]: a [BaseException], so neither
    [except Exception] nor tenacity's default retry predicate sees it. *)
Inductive outcome (A : Type) :=
  | Return (a : A)
  | Raise (e : exn)
  | SysExit (code : Z).
Arguments Return {A} a.
Arguments Raise {A} e.
Arguments SysExit {A} code.

Definition obind {A B} (o : outcome A) (k : A → outcome B) : outcome B :=
  match o with
  | Return a => k a
  | Raise e => Raise e
  | SysExit c => SysExit c
  end.

Notation "x <~ e ;; k" := (obind e (λ x, k))
  (at level 100, e at next level, k at level 200, right associativity).

(** The status the interpreter hands to the shell: 0 on a normal return,
    1 after an uncaught exception (with its traceback), the given code
    after [sys.exit]. *)
Definition exit_status {A} (o : outcome A) : Z :=
  match o with
  | Return _ => 0
  | Raise _ => 1
  | SysExit c => c
  end.

(** ** pandas data *)

Inductive dtype := int64 | float64 | bool_ | object_.

Inductive cell :=
  | CInt (z : Z)
  | CFloat (repr : string)
  | CBool (b : bool)
  | CStr (s : string).

(** A missing entry (NaN / None) is [None]. *)
Record Column := {
  col_name : string;
  col_dtype : dtype;
  col_values : list (option cell)
}.

Record DataFrame := {
  index : list string;
  columns : list Column
}.

Record Series := {
  s_dtype : dtype;
  s_items : list (string * option cell)
}.

(** [DataFrame.empty]: some axis has length 0. *)
Definition df_empty (df : DataFrame) : bool :=
  bool_decide (length (index df) = 0%nat) || bool_decide (length (columns df) = 0%nat).

(** What [numeric_only=True] keeps: float, int and boolean columns. *)
Definition is_numeric (d : dtype) : bool :=
  match d with
  | object_ => false
  | _ => true
  end.

Definition get_numeric_data (df : DataFrame) : list Column :=
  filter (λ c, is_numeric (col_dtype c) = true) (columns df).

(** ['name' in df.columns] *)
Definition has_column (name : string) (df : DataFrame) : bool :=
  bool_decide (name ∈ map col_name (columns df)).

(** [df[name]]: the first column so named, over the frame's index. *)
Definition df_getitem (df : DataFrame) (name : string) : outcome Series :=
  match list_find (λ c, col_name c = name) (columns df) with
  | Some (_, c) =>
      Return {| s_dtype := col_dtype c; s_items := zip (index df) (col_values c) |}
  | None => Raise (Exn "KeyError" name)
  end.

(** [Series.dropna()] *)
Definition dropna (s : Series) : Series :=
  {| s_dtype := s_dtype s;
     s_items := filter (λ it, is_Some (snd it)) (s_items s) |}.

(** [df.isnull().sum()]: per column, the number of missing entries. *)
Definition count_null (c : Column) : nat :=
  length (filter (λ v, v = None) (col_values c)).

Definition isnull_sum (df : DataFrame) : Series :=
  {| s_dtype := int64;
     s_items := map (λ c, (col_name c, Some (CInt (Z.of_nat (count_null c))))) (columns df) |}.

(** [Series.to_frame(name=...)] *)
Definition to_frame (name : string) (s : Series) : DataFrame :=
  {| index := map fst (s_items s);
     columns := [ {| col_name := name; col_dtype := s_dtype s;
                     col_values := map snd (s_items s) |} ] |}.

(** [head()]: the first five rows. *)
Definition df_head (df : DataFrame) : DataFrame :=
  {| index := take 5 (index df);
     columns := map (λ c, {| col_name := col_name c; col_dtype := col_dtype c;
                             col_values := take 5 (col_values c) |}) (columns df) |}.

Definition series_head (s : Series) : Series :=
  {| s_dtype := s_dtype s; s_items := take 5 (s_items s) |}.

Definition dtype_name (d : dtype) : string :=
  match d with
  | int64 => "int64"
  | float64 => "float64"
  | bool_ => "bool"
  | object_ => "object"
  end.

(** [df.dtypes] *)
Definition dtypes (df : DataFrame) : Series :=
  {| s_dtype := object_;
     s_items := map (λ c, (col_name c, Some (CStr (dtype_name (col_dtype c))))) (columns df) |}.

(** ** matplotlib / seaborn calls *)

Inductive plot_call :=
  | Figure (w h : nat)
  | Heatmap (data : DataFrame) (annot : bool) (cmap fmt : string)
  | Histplot (data : Series) (bins : nat) (kde : bool) (color : string)
  | Title (s : string)
  | Xlabel (s : string)
  | Ylabel (s : string)
  | Grid (on : bool) (linestyle : string)
  | TightLayout
  | Savefig (path : string) (dpi : nat)
  | Close.

(** ** The world the process runs in *)

(** Every call that leaves the process is logged, in order. *)
Inductive event :=
  | Print (line : string)
  | ReadCsv (path : string)
  | Makedirs (path : string)
  | Plot (c : plot_call)
  | HttpPost (url : string) (headers : list (string * string)) (body : json)
  | Sleep (secs : nat)
  | OpenW (path : string)
  | FileWrite (path : string) (chunk : string).

Record State := {
  files : gmap string string;   (* regular files and their bytes *)
  dirs : gset string;           (* directories *)
  posts : nat;                  (* [requests.post] calls made so far *)
  trace : list event
}.

Record response := {
  status_code : Z;
  text : string;
  json_body : option json       (* [None]: the body is not JSON *)
}.

Inductive post_result :=
  | Responded (r : response)
  | TransportError (e : exn).

(** Pure library functions whose internals are not modelled. *)
Record Libs := {
  parse_csv : string → DataFrame + exn;
  describe_all : DataFrame → DataFrame;
  pearson : Column → Column → option cell;
  df_to_string : DataFrame → string;
  series_to_string : Series → string;
  df_to_markdown : DataFrame → string;
  render_png : list event → string
}.

(** What the outside decides: the command line, the environment, how the
    endpoint answers the n-th request, and which plotting or filesystem
    call is refused (with which exception). *)
Record World := {
  argv : list string;
  getenv : string → option string;
  respond : nat → post_result;
  fault : event → State → option exn
}.

(** ** The state-and-exception monad *)

Definition M (A : Type) : Type := State → outcome A * State.

Definition ret {A} (a : A) : M A := λ st, (Return a, st).

Definition bind {A B} (m : M A) (k : A → M B) : M B :=
  λ st,
    match m st with
    | (Return a, st') => k a st'
    | (Raise e, st') => (Raise e, st')
    | (SysExit c, st') => (SysExit c, st')
    end.

Notation "x <- e ;; k" := (bind e (λ x, k))
  (at level 100, e at next level, k at level 200, right associativity).
Notation "e ;; k" := (bind e (λ _, k))
  (at level 100, k at level 200, right associativity).

Definition raise {A} (e : exn) : M A := λ st, (Raise e, st).

(** [sys.exit(code)] *)
Definition sys_exit {A} (code : Z) : M A := λ st, (SysExit code, st).

Definition lift {A} (o : outcome A) : M A := λ st, (o, st).

(** [try: body except Exception as e: handler(e)] *)
Definition try_except {A} (body : M A) (handler : exn → M A) : M A :=
  λ st,
    match body st with
    | (Raise e, st') => handler e st'
    | r => r
    end.

(** [if c: body] *)
Definition when (c : bool) (body : M unit) : M unit :=
  if c then body else ret tt.

Definition log (e : event) (st : State) : State :=
  {| files := files st; dirs := dirs st; posts := posts st;
     trace := trace st ++ [e] |}.

Definition set_file (path content : string) (st : State) : State :=
  {| files := <[path := content]> (files st); dirs := dirs st;
     posts := posts st; trace := trace st |}.

Definition add_dir (path : string) (st : State) : State :=
  {| files := files st; dirs := {[path]} ∪ dirs st;
     posts := posts st; trace := trace st |}.

Definition count_post (st : State) : State :=
  {| files := files st; dirs := dirs st; posts := S (posts st);
     trace := trace st |}.

(** [os.path.exists] *)
Definition path_exists (path : string) (st : State) : bool :=
  bool_decide (is_Some (files st !! path)) || bool_decide (path ∈ dirs st).

Section Program.

Context (lib : Libs) (w : World).

(** *** Primitive effects *)

(** [print] and writes to an open handle are taken to succeed. *)
Definition print (line : string) : M unit :=
  λ st, (Return tt, log (Print line) st).

(** [time.sleep], as tenacity calls it between attempts. *)
Definition sleep (secs : nat) : M unit :=
  λ st, (Return tt, log (Sleep secs) st).

(** A call the world may refuse: it is logged, then either raises what
    the world says or takes effect. *)
Definition perform (e : event) (effect : State → State) : M unit :=
  λ st,
    match fault w e st with
    | Some x => (Raise x, log e st)
    | None => (Return tt, effect (log e st))
    end.

(** One pyplot / seaborn call; [savefig] leaves a file behind. *)
Definition plt (c : plot_call) : M unit :=
  perform (Plot c)
    (λ st, match c with
           | Savefig path _ => set_file path (render_png lib (trace st)) st
           | _ => st
           end).

Fixpoint plt_seq (cs : list plot_call) : M unit :=
  match cs with
  | [] => ret tt
  | c :: cs' => plt c ;; plt_seq cs'
  end.

(** [os.makedirs(path, exist_ok=True)] *)
Definition makedirs (path : string) : M unit :=
  perform (Makedirs path) (add_dir path).

(** [open(path, "w")]: creates or truncates. *)
Definition open_w (path : string) : M unit :=
  perform (OpenW path) (set_file path "").

(** [f.write(chunk)] on the handle opened on [path]. *)
Definition f_write (path chunk : string) : M unit :=
  λ st, (Return tt,
         set_file path (default "" (files st !! path) +:+ chunk)
           (log (FileWrite path chunk) st)).

(** [pd.read_csv(filename, encoding='ISO-8859-1')]; a parse that finds no
    column is pandas' [EmptyDataError]. *)
Definition read_csv (filename : string) : M DataFrame :=
  λ st,
    let st' := log (ReadCsv filename) st in
    match files st !! filename with
    | None => (Raise (Exn "FileNotFoundError" filename), st')
    | Some bytes =>
        match parse_csv lib bytes with
        | inl df =>
            if bool_decide (columns df = [])
            then (Raise (Exn "EmptyDataError" "No columns to parse from file"), st')
            else (Return df, st')
        | inr e => (Raise e, st')
        end
    end.

(** [requests.post(url, headers=headers, json=data)] *)
Definition requests_post (url : string) (headers : list (string * string))
    (data : json) : M response :=
  λ st,
    let st' := count_post (log (HttpPost url headers data) st) in
    match respond w (posts st) with
    | Responded r => (Return r, st')
    | TransportError e => (Raise e, st')
    end.

(** *** Python's dynamic operations on parsed JSON *)

Fixpoint dict_lookup (key : string) (fields : list (string * json)) : option json :=
  match fields with
  | [] => None
  | (k, v) :: rest => if decide (k = key) then Some v else dict_lookup key rest
  end.

(** [v.get(key, dflt)]: only a dict has [get]. *)
Definition py_get (v : json) (key : string) (dflt : json) : outcome json :=
  match v with
  | JObj fields => Return (default dflt (dict_lookup key fields))
  | _ => Raise (Exn "AttributeError" "object has no attribute 'get'")
  end.

(** [v[0]] *)
Definition py_index0 (v : json) : outcome json :=
  match v with
  | JArr [] => Raise (Exn "IndexError" "list index out of range")
  | JArr (x :: _) => Return x
  | JStr "" => Raise (Exn "IndexError" "string index out of range")
  | JStr (String c _) => Return (JStr (String c ""))
  | JObj _ => Raise (Exn "KeyError" "0")
  | _ => Raise (Exn "TypeError" "object is not subscriptable")
  end.

(** [v + s] for a [str] s *)
Definition py_add_str (v : json) (s : string) : outcome string :=
  match v with
  | JStr t => Return (t +:+ s)
  | _ => Raise (Exn "TypeError" "unsupported operand type(s) for +")
  end.

(** [response.json()] *)
Definition response_json (r : response) : outcome json :=
  match json_body r with
  | Some j => Return j
  | None => Raise (Exn "JSONDecodeError" "Expecting value")
  end.

(** *** 1. Load CSV *)

Definition load_data (filename : string) : M DataFrame :=
  try_except
    (df <- read_csv filename ;;
     print ("Loaded dataset with " +:+ pretty (length (index df)) +:+ " rows and "
            +:+ pretty (length (columns df)) +:+ " columns.") ;;
     ret df)
    (λ e, print ("Error loading data: " +:+ exn_str e) ;; sys_exit 1).

(** *** 2. Analyze Data *)

(** [df.describe(include='all')] refuses a frame without columns. *)
Definition df_describe (df : DataFrame) : outcome DataFrame :=
  if bool_decide (columns df = [])
  then Raise (Exn "ValueError" "Cannot describe a DataFrame without columns")
  else Return (describe_all lib df).

(** [df.corr(numeric_only=True)]: square, labelled on both axes by the
    numeric columns in their order. *)
Definition df_corr (df : DataFrame) : DataFrame :=
  let num := get_numeric_data df in
  {| index := map col_name num;
     columns := map (λ c, {| col_name := col_name c; col_dtype := float64;
                             col_values := map (λ r, pearson lib r c) num |}) num |}.

Definition analyze_data (df : DataFrame) : outcome (DataFrame * Series * DataFrame) :=
  summary <~ df_describe df ;;
  let missing_values := isnull_sum df in
  let correlation_matrix := df_corr df in
  Return (summary, missing_values, correlation_matrix).

(** *** 3. Generate Visuals *)

Definition chart1_path (folder : string) : string := folder +:+ "/chart1.png".
Definition chart2_path (folder : string) : string := folder +:+ "/chart2.png".

(** The calls of the first block. *)
Definition chart1_calls (corr : DataFrame) (folder : string) : list plot_call :=
  [ Figure 10 6;
    Heatmap corr true "coolwarm" ".2f";
    Title "Feature Correlation Heatmap";
    TightLayout;
    Savefig (chart1_path folder) 300;
    Close ].

(** Chart 1: Correlation Heatmap *)
Definition chart1 (df : DataFrame) (folder : string) : M unit :=
  let corr := df_corr df in
  when (negb (df_empty corr)) (plt_seq (chart1_calls corr folder)).

(** What follows [plt.figure] in the second block, given the column. *)
Definition chart2_calls (col : Series) (folder : string) : list plot_call :=
  [ Histplot (dropna col) 20 true "green";
    Title "Distribution of Average Ratings";
    Xlabel "Average Rating";
    Ylabel "Frequency";
    Grid true "--";
    TightLayout;
    Savefig (chart2_path folder) 300;
    Close ].

(** Chart 2: Average Rating Distribution (if exists) *)
Definition chart2 (df : DataFrame) (folder : string) : M unit :=
  when (has_column "average_rating" df)
    (plt (Figure 8 5) ;;
     col <- lift (df_getitem df "average_rating") ;;
     plt_seq (chart2_calls col folder)).

(** The two blocks follow each other; nothing is caught in between. *)
Definition generate_visualizations (df : DataFrame) (folder : string) : M unit :=
  chart1 df folder ;;
  chart2 df folder.

(** *** 4. Get Insights from OpenAI *)

(** tenacity's [@retry(stop=stop_after_attempt(n), wait=wait_fixed(secs))]
    with its defaults: every [Exception] is retried, and when the stop
    condition holds after a failed attempt, [RetryError] is raised.
    [remaining] is [n] minus the number of the attempt being made. *)
Fixpoint retry_loop {A} (wait_fixed : nat) (fn : M A) (remaining : nat) : M A :=
  λ st,
    match fn st with
    | (Raise e, st') =>
        match remaining with
        | O => (Raise (RetryError e), st')
        | S k => (sleep wait_fixed ;; retry_loop wait_fixed fn k) st'
        end
    | r => r
    end.

Definition retry {A} (stop_after_attempt wait_fixed : nat) (fn : M A) : M A :=
  retry_loop wait_fixed fn (stop_after_attempt - 1).

Definition extract_content (body : json) : outcome json :=
  choices <~ py_get body "choices" (JArr [JObj []]) ;;
  first <~ py_index0 choices ;;
  message <~ py_get first "message" (JObj []) ;;
  py_get message "content" (JStr "").

Definition chat (url : string) (headers : list (string * string)) (data : json) : M json :=
  response <- requests_post url headers data ;;
  if bool_decide (status_code response = 200%Z)
  then lift (body <~ response_json response ;; extract_content body)
  else raise (Exn "Exception"
                ("API Error: " +:+ pretty (status_code response) +:+ " - "
                 +:+ text response)).

Definition api_url : string := "https://api.openai.com/v1/chat/completions".

Definition request_data (prompt : string) : json :=
  JObj [ ("model", JStr "gpt-3.5-turbo");
         ("messages",
          JArr [ JObj [("role", JStr "system"); ("content", JStr "You are a data analyst.")];
                 JObj [("role", JStr "user"); ("content", JStr prompt)] ]) ].

Definition request_headers (api_key : string) : list (string * string) :=
  [ ("Authorization", "Bearer " +:+ api_key); ("Content-Type", "application/json") ].

(** [not api_key] holds for an unset variable and for an empty one. *)
Definition get_openai_response (prompt : string) : M json :=
  match getenv w "OPENAI_API_KEY" with
  | None | Some "" =>
      print "Error: OPENAI_API_KEY not set." ;;
      sys_exit 1
  | Some api_key =>
      retry 3 2 (chat api_url (request_headers api_key) (request_data prompt))
  end.

(** *** 5. Write README *)

(** The two-character string a Python literal writes as a backslash
    followed by n is one line feed. *)
Definition nl : string := String "010"%char "".

(** [s.endswith(suffix)] *)
Definition endswith (suffix s : string) : bool :=
  String.prefix (String.rev suffix) (String.rev s).

(** [os.path.join(a, b)] (posixpath) *)
Definition path_join (a b : string) : string :=
  if String.prefix "/" b then b
  else if bool_decide (a = "") || endswith "/" a then a +:+ b
  else a +:+ "/" +:+ b.

(** [os.path.exists(path)] *)
Definition os_path_exists (path : string) : M bool :=
  λ st, (Return (path_exists path st), st).

Definition generate_report (folder filename : string) (summary : DataFrame)
    (missing_values : Series) (correlation_matrix : DataFrame) (insights : json) : M unit :=
  let readme_path := path_join folder "README.md" in
  open_w readme_path ;;
  let f_write := f_write readme_path in
  f_write ("# Automated Data Analysis Report" +:+ nl +:+ nl) ;;
  f_write ("## Dataset: `" +:+ filename +:+ "`" +:+ nl +:+ nl) ;;

  f_write ("### Summary Statistics" +:+ nl +:+ nl) ;;
  f_write (df_to_markdown lib summary +:+ nl +:+ nl) ;;

  f_write ("### Missing Values" +:+ nl +:+ nl) ;;
  f_write (df_to_markdown lib (to_frame "missing_count" missing_values) +:+ nl +:+ nl) ;;

  f_write ("### Correlation Matrix" +:+ nl +:+ nl) ;;
  f_write (df_to_markdown lib correlation_matrix +:+ nl +:+ nl) ;;

  f_write ("### AI-Generated Insights" +:+ nl +:+ nl) ;;
  chunk <- lift (py_add_str insights (nl +:+ nl)) ;;
  f_write chunk ;;

  f_write ("### Visualizations" +:+ nl +:+ nl) ;;
  chart1 <- os_path_exists (chart1_path folder) ;;
  when chart1 (f_write ("![Correlation Heatmap](chart1.png)" +:+ nl +:+ nl)) ;;
  chart2 <- os_path_exists (chart2_path folder) ;;
  when chart2 (f_write ("![Rating Distribution](chart2.png)" +:+ nl)).

(** *** 6. Main Entry Point *)

(** [s.rfind(c)]: the last position of [c], or -1. *)
Fixpoint rfind_from (c : ascii) (s : string) (i last : Z) : Z :=
  match s with
  | "" => last
  | String a r => rfind_from c r (i + 1) (if decide (a = c) then i else last)
  end.

Definition rfind (c : ascii) (s : string) : Z := rfind_from c s 0 (-1).

(** [p[i:]] and [p[:i]] for [0 <= i] *)
Definition slice_from (i : Z) (p : string) : string :=
  String.substring (Z.to_nat i) (String.length p - Z.to_nat i) p.

Definition slice_to (i : Z) (p : string) : string :=
  String.substring 0 (Z.to_nat i) p.

(** [os.path.basename(p)] *)
Definition basename (p : string) : string :=
  let i := (rfind "/" p + 1)%Z in
  slice_from i p.

(** The loop of [genericpath._splitext] that skips the leading dots of
    the last component: does a character other than a dot occur at a
    position in [filenameIndex, filenameIndex + n)? *)
Fixpoint before_dot (p : string) (filenameIndex n : nat) : bool :=
  match n with
  | O => false
  | S k =>
      match String.get filenameIndex p with
      | Some "."%char => before_dot p (S filenameIndex) k
      | _ => true
      end
  end.

(** [os.path.splitext(p)] *)
Definition splitext (p : string) : string * string :=
  let sepIndex := rfind "/" p in
  let dotIndex := rfind "." p in
  if bool_decide (sepIndex < dotIndex)%Z
     && before_dot p (Z.to_nat (sepIndex + 1)) (Z.to_nat (dotIndex - (sepIndex + 1)))
  then (slice_to dotIndex p, slice_from dotIndex p)
  else (p, "").

Definition make_prompt (df summary : DataFrame) (missing_values : Series)
    (correlation_matrix : DataFrame) : string :=
  "Here is a dataset summary:" +:+ nl +:+ nl
  +:+ "Columns and types:" +:+ nl +:+ series_to_string lib (dtypes df) +:+ nl +:+ nl
  +:+ "Top summary:" +:+ nl +:+ df_to_string lib (df_head summary) +:+ nl +:+ nl
  +:+ "Missing values:" +:+ nl +:+ series_to_string lib (series_head missing_values) +:+ nl +:+ nl
  +:+ "Correlation matrix:" +:+ nl +:+ df_to_string lib (df_head correlation_matrix) +:+ nl +:+ nl
  +:+ "Write a narrative-style story with insights, trends, and what actions could be taken based on this data.".

Definition output_folder (filename : string) : string :=
  fst (splitext (basename filename)).

Definition main : M unit :=
  if bool_decide (length (argv w) ≠ 2%nat)
  then print "Usage: uv run autolysis.py <dataset.csv>" ;; sys_exit 1
  else
    let filename := default "" (argv w !! 1%nat) in
    df <- load_data filename ;;
    analysis <- lift (analyze_data df) ;;
    let '(summary, missing_values, correlation_matrix) := analysis in

    (* Derive output folder from dataset name *)
    let folder := output_folder filename in
    makedirs folder ;;

    generate_visualizations df folder ;;

    (* Trim prompt to avoid sending too much text *)
    let prompt := make_prompt df summary missing_values correlation_matrix in

    insights <- get_openai_response prompt ;;
    generate_report folder filename summary missing_values correlation_matrix insights ;;
    print ("✅ Analysis complete. Output saved in `" +:+ folder
           +:+ "/README.md` and PNG files.").

End Program.

Local Close Scope string_scope.

(** * Vocabulary of the statements *)

(** [main] from the insight step on, once [df] is loaded and analysed. *)
Definition insight_and_report (lib : Libs) (w : World) (filename : string)
    (df summary : DataFrame) (missing_values : Series)
    (correlation_matrix : DataFrame) : M unit :=
  let folder := output_folder filename in
  bind (get_openai_response w (make_prompt lib df summary missing_values correlation_matrix))
    (λ insights,
       bind (generate_report lib w folder filename summary missing_values
               correlation_matrix insights)
         (λ _, print ("✅ Analysis complete. Output saved in `" +:+ folder
                      +:+ "/README.md` and PNG files."))).

(** The file the run is given, [sys.argv[1]]. *)
Definition dataset_arg (w : World) : string := default ""%string (argv w !! 1%nat).

(** ** What a computation may do to the world *)

(** The event is a request to the endpoint. *)
Definition is_post (e : event) : bool :=
  match e with
  | HttpPost _ _ _ => true
  | _ => false
  end.

(** The event is a wait between attempts. *)
Definition is_sleep (e : event) : bool :=
  match e with
  | Sleep _ => true
  | _ => false
  end.

(** The number of requests among some events. *)
Definition count_posts (evs : list event) : nat :=
  length (filter (λ e, is_post e = true) evs).

(** The events logged between two states of one run. *)
Definition new_events (st st' : State) : list event :=
  drop (length (trace st)) (trace st').

(** [evolves ok keep st st']: from [st] to [st'] the log grew by events
    that all satisfy [ok], [posts] grew by the number of requests among
    them, the files at the paths in [keep] are untouched and no directory
    disappeared. *)
Definition evolves (ok : event → Prop) (keep : string → Prop) (st st' : State) : Prop :=
  ∃ new,
    trace st' = trace st ++ new
    ∧ Forall ok new
    ∧ posts st' = (posts st + count_posts new)%nat
    ∧ (∀ p, keep p → files st' !! p = files st !! p)
    ∧ dirs st ⊆ dirs st'.

(** [obeys ok keep m]: every run of [m] evolves the world that way, and
    if it ends in [SystemExit], the code is 1. *)
Definition obeys {A} (ok : event → Prop) (keep : string → Prop) (m : M A) : Prop :=
  ∀ st, evolves ok keep st (snd (m st)) ∧ ∀ c, fst (m st) = SysExit c → c = 1%Z.

(** ** The remote call *)

(** What one attempt makes of the endpoint's answer. *)
Definition attempt_outcome (r : post_result) : outcome json :=
  match r with
  | TransportError e => Raise e
  | Responded resp =>
      if bool_decide (status_code resp = 200%Z)
      then obind (response_json resp) extract_content
      else Raise (Exn "Exception"
                    ("API Error: " +:+ pretty (status_code resp) +:+ " - " +:+ text resp))
  end.

(** A transport exception, or a response whose status is not 2xx. *)
Definition transient_error (r : post_result) : Prop :=
  match r with
  | TransportError _ => True
  | Responded resp => ¬ (200 ≤ status_code resp < 300)%Z
  end.

(** An attempt that ends in an exception, whatever its cause. *)
Definition attempt_fails (r : post_result) : Prop :=
  ∃ e, attempt_outcome r = Raise e.

(** The request every attempt sends. *)
Definition the_post (api_key prompt : string) : event :=
  HttpPost api_url (request_headers api_key) (request_data prompt).

(** * A concrete run

    A three-row dataset with a numeric [id], a numeric [average_rating]
    with one missing value and a text [title]; library stand-ins; and a
    world parametrised by the credential, the endpoint's answers and the
    calls it refuses. *)

Module Demo.

Definition ratings : DataFrame :=
  {| index := ["0"; "1"; "2"]%string;
     columns :=
       [ {| col_name := "id"; col_dtype := int64;
            col_values := [Some (CInt 1); Some (CInt 2); Some (CInt 3)] |};
         {| col_name := "average_rating"; col_dtype := float64;
            col_values := [Some (CFloat "4.5"); None; Some (CFloat "3.9")] |};
         {| col_name := "title"; col_dtype := object_;
            col_values := [Some (CStr "a"); Some (CStr "b"); None] |} ] |}.

(** Text only: no numeric column, no [average_rating]. *)
Definition titles : DataFrame :=
  {| index := ["0"; "1"]%string;
     columns :=
       [ {| col_name := "title"; col_dtype := object_;
            col_values := [Some (CStr "a"); Some (CStr "b")] |};
         {| col_name := "Average_Rating"; col_dtype := object_;
            col_values := [Some (CStr "high"); None] |} ] |}.

Definition lib_for (df : DataFrame) : Libs :=
  {| parse_csv := λ _, inl df;
     describe_all := λ df, df;
     pearson := λ _ _, Some (CFloat "1.0");
     df_to_string := λ _, "<frame>"%string;
     series_to_string := λ _, "<series>"%string;
     df_to_markdown := λ df, ("|" +:+ pretty (length (columns df)) +:+ " columns|")%string;
     render_png := λ _, "PNG"%string |}.

Definition lib : Libs := lib_for ratings.

Definition server_error : post_result :=
  Responded {| status_code := 500; text := "Internal Server Error"; json_body := None |}.

Definition answer (body : json) : post_result :=
  Responded {| status_code := 200; text := ""; json_body := Some body |}.

Definition story : json :=
  JObj [("choices"%string,
         JArr [JObj [("message"%string,
                      JObj [("role"%string, JStr "assistant");
                            ("content"%string, JStr "Ratings are high.")])]])].

Definition nothing_refused : event → State → option exn := λ _ _, None.

Definition world (key : option string) (answers : nat → post_result)
    (refuse : event → State → option exn) : World :=
  {| argv := ["autolysis.py"; "data.csv"]%string;
     getenv := λ name, if decide (name = "OPENAI_API_KEY"%string) then key else None;
     respond := answers;
     fault := refuse |}.

Definition disk : State :=
  {| files := {[ "data.csv"%string := "id,average_rating,title"%string ]};
     dirs := ∅;
     posts := 0;
     trace := [] |}.

End Demo.

(** ** Charts and report *)

(** The event opens a file for writing or writes to one. *)
Definition is_report_write (e : event) : bool :=
  match e with
  | OpenW _ | FileWrite _ _ => true
  | _ => false
  end.

(** The events that make chart 1: drawing the heatmap or saving to its
    path. *)
Definition produces_chart1 (folder : string) (e : event) : bool :=
  match e with
  | Plot (Heatmap _ _ _ _) => true
  | Plot (Savefig path _) => bool_decide (path = chart1_path folder)
  | _ => false
  end.

(** The events that make chart 2. *)
Definition produces_chart2 (folder : string) (e : event) : bool :=
  match e with
  | Plot (Histplot _ _ _ _) => true
  | Plot (Savefig path _) => bool_decide (path = chart2_path folder)
  | _ => false
  end.

(** A block is attempted when its opening [plt.figure] call is made. *)
Definition chart1_attempted (evs : list event) : Prop := Plot (Figure 10 6) ∈ evs.
Definition chart2_attempted (evs : list event) : Prop := Plot (Figure 8 5) ∈ evs.

(** "Numeric" as the specification's data model has it, beside text and
    boolean-like columns: integers and floats. *)
Definition is_number (d : dtype) : bool :=
  match d with
  | int64 | float64 => true
  | bool_ | object_ => false
  end.

(** "Zero numeric columns": no integer and no float column; boolean
    columns may be there. *)
Definition no_numeric_column (df : DataFrame) : Prop :=
  Forall (λ c, is_number (col_dtype c) = false) (columns df).

(** No column that [numeric_only=True] keeps: neither integer, float nor
    boolean. *)
Definition no_numeric_or_boolean_column (df : DataFrame) : Prop :=
  Forall (λ c, col_dtype c = object_) (columns df).

(** What reaches [histplot], spelled out: the labelled entries of the
    [average_rating] column that are present, in their order, with the
    column's dtype, for a histogram of 20 bins. *)
Definition histplot_gets_present_values (df : DataFrame) (e : event) : Prop :=
  ∀ data bins kde color,
    e = Plot (Histplot data bins kde color) →
    ∃ col, df_getitem df "average_rating" = Return col
           ∧ s_dtype data = s_dtype col
           ∧ s_items data = filter (λ it, is_Some it.2) (s_items col)
           ∧ Forall (λ it, is_Some it.2) (s_items data)
           ∧ bins = 20%nat.

Module DemoFaults.

(** A world in which seaborn refuses to draw the heatmap. *)
Definition heatmap_fails : event → State → option exn :=
  λ e _,
    match e with
    | Plot (Heatmap _ _ _ _) => Some (Exn "ValueError" "zero-size array")
    | _ => None
    end.

(** A world in which no figure can be saved. *)
Definition savefig_fails : event → State → option exn :=
  λ e _,
    match e with
    | Plot (Savefig _ _) => Some (Exn "PermissionError" "Permission denied")
    | _ => None
    end.

(** A dataset with a True/False column and a text column: no integer,
    no float. *)
Definition flags : DataFrame :=
  {| index := ["0"; "1"; "2"]%string;
     columns :=
       [ {| col_name := "in_stock"; col_dtype := bool_;
            col_values := [Some (CBool true); Some (CBool false); Some (CBool true)] |};
         {| col_name := "title"; col_dtype := object_;
            col_values := [Some (CStr "a"); Some (CStr "b"); Some (CStr "c")] |} ] |}.

End DemoFaults.

(** The pieces of a text, one after the other. *)
Definition join (pieces : list string) : string := foldr String.append ""%string pieces.

(** The report as the specification describes it: in this order a title,
    the dataset name, the summary-statistics table, the missing-values
    table, the correlation-matrix table, the narrative text, and then the
    image embeds, each one present exactly when its file exists. *)
Definition report_sections (lib : Libs) (filename : string) (summary : DataFrame)
    (missing_values : Series) (correlation_matrix : DataFrame) (insights : string)
    (chart1_exists chart2_exists : bool) : list string :=
  [ "# Automated Data Analysis Report" +:+ nl +:+ nl;
    "## Dataset: `" +:+ filename +:+ "`" +:+ nl +:+ nl;
    ("### Summary Statistics" +:+ nl +:+ nl)
      +:+ (df_to_markdown lib summary +:+ nl +:+ nl);
    ("### Missing Values" +:+ nl +:+ nl)
      +:+ (df_to_markdown lib (to_frame "missing_count" missing_values) +:+ nl +:+ nl);
    ("### Correlation Matrix" +:+ nl +:+ nl)
      +:+ (df_to_markdown lib correlation_matrix +:+ nl +:+ nl);
    ("### AI-Generated Insights" +:+ nl +:+ nl)
      +:+ (insights +:+ nl +:+ nl);
    ("### Visualizations" +:+ nl +:+ nl)
      +:+ (if chart1_exists then "![Correlation Heatmap](chart1.png)" +:+ nl +:+ nl else "")
      +:+ (if chart2_exists then "![Rating Distribution](chart2.png)" +:+ nl else "")
  ]%string.

Definition report_text (lib : Libs) (filename : string) (summary : DataFrame)
    (missing_values : Series) (correlation_matrix : DataFrame) (insights : string)
    (chart1_exists chart2_exists : bool) : string :=
  join (report_sections lib filename summary missing_values correlation_matrix insights
          chart1_exists chart2_exists).

(** While README.md is being written: since [st0] the file at [readme]
    was opened and received [writes]; nothing else changed. *)
Definition writing (readme : string) (st0 : State) (writes : list string) (st : State) : Prop :=
  files st = <[readme := join writes]> (files st0)
  ∧ dirs st = dirs st0
  ∧ posts st = posts st0
  ∧ trace st = trace st0 ++ OpenW readme :: map (FileWrite readme) writes.

(** ** Further vocabulary *)

(** The log of [k] failed attempts followed by one more attempt: the
    request, and after each failure a sleep of 2 and the request again. *)
Fixpoint attempts_log (post : event) (k : nat) : list event :=
  match k with
  | O => [post]
  | S k' => post :: Sleep 2 :: attempts_log post k'
  end.

Definition count_sleeps (evs : list event) : nat :=
  length (filter (λ e, is_sleep e = true) evs).

(** The event is a [print] or the reading of the CSV. *)
Definition is_print_or_read (e : event) : bool :=
  match e with
  | Print _ | ReadCsv _ => true
  | _ => false
  end.

(** The event is a plotting call. *)
Definition is_plot (e : event) : bool :=
  match e with
  | Plot _ => true
  | _ => false
  end.

(** The first choice of an answer, as the chain of [get]s sees it: the
    default [{}] when the key is missing, the first element of a list
    that starts with an object, nothing else. *)
Definition first_choice (fields : list (string * json)) : option (list (string * json)) :=
  match dict_lookup "choices" fields with
  | None => Some []
  | Some (JArr (JObj first :: _)) => Some first
  | Some _ => None
  end.

(** The message of a choice: the default [{}] when the key is missing,
    the object stored under it, nothing else. *)
Definition message_of (choice : list (string * json)) : option (list (string * json)) :=
  match dict_lookup "message" choice with
  | None => Some []
  | Some (JObj message) => Some message
  | Some _ => None
  end.

(** A key is missing on the way to the content. *)
Definition key_missing (fields : list (string * json)) : Prop :=
  ∃ choice message,
    first_choice fields = Some choice ∧ message_of choice = Some message
    ∧ dict_lookup "content" message = None.

(** What README.md holds when the writer stops at the narrative: the
    sections before it and the heading of the narrative. *)
Definition report_before_narrative (lib : Libs) (filename : string) (summary : DataFrame)
    (missing_values : Series) (correlation_matrix : DataFrame) : string :=
  join (take 5 (report_sections lib filename summary missing_values correlation_matrix
                  "" false false)
        ++ [("### AI-Generated Insights" +:+ nl +:+ nl)%string]).

(** The character occurs in the string. *)
Fixpoint has_char (c : ascii) (s : string) : bool :=
  match s with
  | EmptyString => false
  | String a r => bool_decide (a = c) || has_char c r
  end.

(** The message [main] prints at the end of a successful run. *)
Definition completion_message (folder : string) : string :=
  ("✅ Analysis complete. Output saved in `" +:+ folder
   +:+ "/README.md` and PNG files.")%string.

(** The event belongs to the stages before the insight step: reading
    the CSV, making the folder, plotting. *)
Definition is_preparation (e : event) : bool :=
  match e with
  | ReadCsv _ | Makedirs _ | Plot _ => true
  | _ => false
  end.

(** * Proofs *)

(** ** The output folder *)

Example basename_ex : basename "a/b/data.csv" = "data.csv".
Proof. reflexivity. Qed.

Example output_folder_ex :
  output_folder "a/b/data.csv" = "data" ∧ output_folder ".csv" = ".csv"
  ∧ output_folder "x.tar.gz" = "x.tar" ∧ output_folder "d.v/f" = "f".
Proof. repeat split; reflexivity. Qed.

(** ** The evolution of the world is a preorder, kept by every step *)

Lemma count_posts_app (l1 l2 : list event) :
  count_posts (l1 ++ l2) = (count_posts l1 + count_posts l2)%nat.
Proof. unfold count_posts. by rewrite filter_app, length_app. Qed.

Lemma new_events_app (st st' : State) (new : list event) :
  trace st' = trace st ++ new → new_events st st' = new.
Proof. intros H. unfold new_events. by rewrite H, drop_app_length. Qed.

Section Evolution.

Context (ok : event → Prop) (keep : string → Prop).

Lemma evolves_refl st : evolves ok keep st st.
Proof.
  exists []. rewrite app_nil_r. repeat split; try done.
  all: unfold count_posts; simpl; lia.
Qed.

Lemma evolves_trans st1 st2 st3 :
  evolves ok keep st1 st2 → evolves ok keep st2 st3 → evolves ok keep st1 st3.
Proof.
  intros (n1 & T1 & F1 & P1 & K1 & D1) (n2 & T2 & F2 & P2 & K2 & D2).
  exists (n1 ++ n2). repeat split.
  - by rewrite T2, T1, app_assoc.
  - by apply Forall_app.
  - rewrite count_posts_app. lia.
  - intros p Hp. by rewrite K2, K1.
  - set_solver.
Qed.

Lemma evolves_log e st : ok e → is_post e = false → evolves ok keep st (log e st).
Proof.
  intros He Hp. exists [e]. simpl.
  split; [done|]. split; [by constructor|]. split; [|done].
  unfold count_posts. rewrite filter_cons_False by congruence. simpl. lia.
Qed.

Lemma evolves_set_file path content st :
  ¬ keep path → evolves ok keep st (set_file path content st).
Proof.
  intros Hk. exists []. simpl. rewrite app_nil_r.
  split; [done|]. split; [done|]. split; [unfold count_posts; simpl; lia|].
  split; [|done].
  intros p Hp. apply lookup_insert_ne. intros ->. auto.
Qed.

Lemma evolves_add_dir path st : evolves ok keep st (add_dir path st).
Proof.
  exists []. simpl. rewrite app_nil_r.
  split; [done|]. split; [done|]. split; [unfold count_posts; simpl; lia|].
  split; [done|]. set_solver.
Qed.

Lemma evolves_post url headers data st :
  ok (HttpPost url headers data) →
  evolves ok keep st (count_post (log (HttpPost url headers data) st)).
Proof.
  intros He. exists [HttpPost url headers data]. simpl.
  split; [done|]. split; [by constructor|]. split; [|done].
  unfold count_posts. rewrite filter_cons_True by done. simpl. lia.
Qed.

(** *** The monad's combinators *)

Lemma obeys_ret {A} (a : A) : obeys ok keep (ret a).
Proof. intros st. split; [apply evolves_refl | done]. Qed.

Lemma obeys_raise {A} (e : exn) : obeys ok keep (@raise A e).
Proof. intros st. split; [apply evolves_refl | done]. Qed.

Lemma obeys_sys_exit {A} : obeys ok keep (@sys_exit A 1).
Proof. intros st. split; [apply evolves_refl | simpl; congruence]. Qed.

Lemma obeys_lift {A} (o : outcome A) :
  (∀ c, o ≠ SysExit c) → obeys ok keep (lift o).
Proof. intros H st. split; [apply evolves_refl | simpl; intros c Hc; by destruct (H c)]. Qed.

Lemma obeys_bind {A B} (m : M A) (k : A → M B) :
  obeys ok keep m → (∀ a, obeys ok keep (k a)) → obeys ok keep (bind m k).
Proof.
  intros Hm Hk st. unfold bind. destruct (Hm st) as [E X].
  destruct (m st) as [[a|e|c] st1]; simpl in *.
  - destruct (Hk a st1) as [E' X']. split; [|exact X'].
    by eapply evolves_trans.
  - split; [done | done].
  - split; [done |]. intros c0 [= <-]. by apply X.
Qed.

Lemma obeys_try_except {A} (body : M A) (handler : exn → M A) :
  obeys ok keep body → (∀ e, obeys ok keep (handler e)) →
  obeys ok keep (try_except body handler).
Proof.
  intros Hm Hk st. unfold try_except. destruct (Hm st) as [E X].
  destruct (body st) as [[a|e|c] st1]; simpl in *.
  - split; [done | done].
  - destruct (Hk e st1) as [E' X']. split; [|exact X'].
    by eapply evolves_trans.
  - split; [done | exact X].
Qed.

Lemma obeys_when (c : bool) (body : M unit) :
  obeys ok keep body → obeys ok keep (when c body).
Proof. destruct c; simpl; auto using @obeys_ret. Qed.

(** *** The primitive effects *)

Lemma obeys_print line : ok (Print line) → obeys ok keep (print line).
Proof. intros H st. split; [by apply evolves_log | done]. Qed.

Lemma obeys_sleep secs : ok (Sleep secs) → obeys ok keep (sleep secs).
Proof. intros H st. split; [by apply evolves_log | done]. Qed.

Lemma obeys_perform w e effect :
  ok e → is_post e = false → (∀ st, evolves ok keep st (effect st)) →
  obeys ok keep (perform w e effect).
Proof.
  intros He Hp Heff st. unfold perform.
  destruct (fault w e st); simpl; (split; [|done]).
  - by apply evolves_log.
  - eapply evolves_trans; [by apply evolves_log | apply Heff].
Qed.

Lemma obeys_plt lib w c :
  ok (Plot c) → (∀ path dpi, c = Savefig path dpi → ¬ keep path) →
  obeys ok keep (plt lib w c).
Proof.
  intros He Hs. apply obeys_perform; auto.
  intros st. destruct c; try apply evolves_refl.
  apply evolves_set_file. eauto.
Qed.

Lemma obeys_plt_seq lib w cs :
  Forall (λ c, ok (Plot c) ∧ ∀ path dpi, c = Savefig path dpi → ¬ keep path) cs →
  obeys ok keep (plt_seq lib w cs).
Proof.
  induction 1 as [|c cs [Hc Hs] _ IH]; simpl.
  - apply obeys_ret.
  - apply obeys_bind; [by apply obeys_plt | auto].
Qed.

Lemma obeys_makedirs w path : ok (Makedirs path) → obeys ok keep (makedirs w path).
Proof. intros H. apply obeys_perform; auto. intros st. apply evolves_add_dir. Qed.

Lemma obeys_open_w w path :
  ok (OpenW path) → ¬ keep path → obeys ok keep (open_w w path).
Proof. intros H Hk. apply obeys_perform; auto. intros st. by apply evolves_set_file. Qed.

Lemma obeys_f_write path chunk :
  ok (FileWrite path chunk) → ¬ keep path → obeys ok keep (f_write path chunk).
Proof.
  intros H Hk st. split; [|done]. simpl.
  eapply evolves_trans; [by apply evolves_log | by apply evolves_set_file].
Qed.

Lemma obeys_os_path_exists path : obeys ok keep (os_path_exists path).
Proof. intros st. split; [apply evolves_refl | done]. Qed.

Lemma obeys_read_csv lib filename :
  ok (ReadCsv filename) → obeys ok keep (read_csv lib filename).
Proof.
  intros H st. unfold read_csv.
  destruct (files st !! filename); [destruct (parse_csv lib _)|]; try case_bool_decide;
    simpl; (split; [by apply evolves_log | done]).
Qed.

Lemma obeys_requests_post w url headers data :
  ok (HttpPost url headers data) → obeys ok keep (requests_post w url headers data).
Proof.
  intros H st. unfold requests_post.
  destruct (respond w (posts st)); simpl; (split; [by apply evolves_post | done]).
Qed.

End Evolution.

(** *** The stages of the pipeline *)

Section Stages.

Context (ok : event → Prop) (keep : string → Prop) (lib : Libs) (w : World).

Lemma df_getitem_no_exit df name c : df_getitem df name ≠ SysExit c.
Proof. unfold df_getitem. by destruct (list_find _ _) as [[? ?]|]. Qed.

Lemma analyze_data_no_exit df c : analyze_data lib df ≠ SysExit c.
Proof. unfold analyze_data, df_describe. by case_bool_decide. Qed.

Lemma py_add_str_no_exit v s c : py_add_str v s ≠ SysExit c.
Proof. by destruct v. Qed.

Lemma py_get_no_exit v key dflt c : py_get v key dflt ≠ SysExit c.
Proof. by destruct v. Qed.

Lemma py_index0_no_exit v c : py_index0 v ≠ SysExit c.
Proof. destruct v as [| | |[|]|[|]|]; done. Qed.

Lemma extract_content_no_exit body c : extract_content body ≠ SysExit c.
Proof.
  unfold extract_content.
  destruct (py_get body _ _) as [j1| |] eqn:E1; simpl; [|done|by destruct (py_get_no_exit _ _ _ _ E1)].
  destruct (py_index0 j1) as [j2| |] eqn:E2; simpl; [|done|by destruct (py_index0_no_exit _ _ E2)].
  destruct (py_get j2 _ _) as [j3| |] eqn:E3; simpl; [|done|by destruct (py_get_no_exit _ _ _ _ E3)].
  apply py_get_no_exit.
Qed.

Lemma obeys_load_data filename :
  (∀ p, ok (ReadCsv p)) → (∀ l, ok (Print l)) →
  obeys ok keep (load_data lib filename).
Proof.
  intros Hr Hp. unfold load_data. apply obeys_try_except.
  - apply obeys_bind; [by apply obeys_read_csv|]. intros df.
    apply obeys_bind; [by apply obeys_print|]. intros _. apply obeys_ret.
  - intros e. apply obeys_bind; [by apply obeys_print|]. intros _.
    apply obeys_sys_exit.
Qed.

Local Ltac plot_calls_ok :=
  repeat (apply Forall_cons_2;
          [split; [auto | intros ? ? Heq; inversion Heq; by subst] |]);
  apply Forall_nil_2.

Lemma obeys_generate_visualizations df folder :
  (∀ c, ok (Plot c)) → ¬ keep (chart1_path folder) → ¬ keep (chart2_path folder) →
  obeys ok keep (generate_visualizations lib w df folder).
Proof.
  intros Hp H1 H2. unfold generate_visualizations, chart1, chart1_calls, chart2, chart2_calls.
  apply obeys_bind.
  - apply obeys_when, obeys_plt_seq.
    plot_calls_ok.
  - intros _. apply obeys_when.
    apply obeys_bind; [apply obeys_plt; [auto | done]|]. intros _.
    apply obeys_bind; [apply obeys_lift, df_getitem_no_exit|]. intros col.
    apply obeys_plt_seq.
    plot_calls_ok.
Qed.

Lemma obeys_chat url headers data :
  ok (HttpPost url headers data) → obeys ok keep (chat w url headers data).
Proof.
  intros H. unfold chat. apply obeys_bind; [by apply obeys_requests_post|].
  intros r. case_bool_decide; [|apply obeys_raise].
  apply obeys_lift. intros c. unfold response_json.
  destruct (json_body r); simpl; [apply extract_content_no_exit | done].
Qed.

Lemma obeys_retry_loop {A} wait_fixed (fn : M A) remaining :
  ok (Sleep wait_fixed) → obeys ok keep fn →
  obeys ok keep (retry_loop wait_fixed fn remaining).
Proof.
  intros Hs Hfn. induction remaining as [|k IH]; intros st; simpl;
    destruct (Hfn st) as [E X]; destruct (fn st) as [[a|e|c] st1]; simpl in *;
    try (split; [done | first [done | exact X]]).
  destruct (obeys_bind ok keep (sleep wait_fixed) (λ _, retry_loop wait_fixed fn k)
              (obeys_sleep ok keep _ Hs) (λ _, IH) st1) as [E' X'].
  split; [by eapply evolves_trans | exact X'].
Qed.

Lemma obeys_get_openai_response prompt :
  (∀ l, ok (Print l)) → (∀ n, ok (Sleep n)) → (∀ u h d, ok (HttpPost u h d)) →
  obeys ok keep (get_openai_response w prompt).
Proof.
  intros Hp Hs Hh. unfold get_openai_response.
  assert (obeys ok keep (print "Error: OPENAI_API_KEY not set." ;; @sys_exit json 1)).
  { apply obeys_bind; [by apply obeys_print|]. intros _. apply obeys_sys_exit. }
  destruct (getenv w _) as [[|]|]; auto.
  apply obeys_retry_loop; auto. by apply obeys_chat.
Qed.

(** Without a credential the insight step makes no request: whatever is
    allowed of [print] is all that is needed. *)
Lemma obeys_get_openai_response_unset prompt :
  getenv w "OPENAI_API_KEY" = None → (∀ l, ok (Print l)) →
  obeys ok keep (get_openai_response w prompt).
Proof.
  intros Hk Hp. unfold get_openai_response. rewrite Hk.
  apply obeys_bind; [by apply obeys_print|]. intros _. apply obeys_sys_exit.
Qed.

Lemma obeys_generate_report folder filename summary missing_values correlation_matrix insights :
  (∀ p, ok (OpenW p)) → (∀ p c, ok (FileWrite p c)) →
  ¬ keep (path_join folder "README.md") →
  obeys ok keep
    (generate_report lib w folder filename summary missing_values correlation_matrix insights).
Proof.
  intros Ho Hw Hk. unfold generate_report.
  repeat first
    [ apply obeys_ret
    | apply obeys_when
    | apply obeys_f_write; [auto | done]
    | apply obeys_open_w; [auto | done]
    | apply obeys_os_path_exists
    | apply obeys_lift, py_add_str_no_exit
    | apply obeys_bind; [|intros ?] ].
Qed.

End Stages.

(** * The Insight Requester *)

Section Insight.

Context (w : World).

Lemma chat_run url headers data st :
  chat w url headers data st =
  (attempt_outcome (respond w (posts st)),
   count_post (log (HttpPost url headers data) st)).
Proof.
  unfold chat, bind, requests_post, attempt_outcome.
  destruct (respond w (posts st)) as [r|e]; simpl; [|done].
  by case_bool_decide.
Qed.

Lemma transient_error_raises r :
  transient_error r → ∃ e, attempt_outcome r = Raise e.
Proof.
  destruct r as [resp|e]; simpl; [|by eauto].
  intros H. rewrite bool_decide_eq_false_2 by lia. eauto.
Qed.

Lemma retry_loop_last {A} wait_fixed (fn : M A) st :
  retry_loop wait_fixed fn 0 st =
  match fn st with
  | (Raise e, st') => (Raise (RetryError e), st')
  | r => r
  end.
Proof. done. Qed.

Lemma retry_loop_more {A} wait_fixed (fn : M A) k st :
  retry_loop wait_fixed fn (S k) st =
  match fn st with
  | (Raise e, st') => retry_loop wait_fixed fn k (log (Sleep wait_fixed) st')
  | r => r
  end.
Proof. simpl. by destruct (fn st) as [[?|?|?] ?]. Qed.

(** The loop makes at most [remaining + 1] requests. *)
Lemma retry_loop_posts url headers data remaining st :
  (posts (retry_loop 2 (chat w url headers data) remaining st).2
   ≤ posts st + S remaining)%nat.
Proof.
  revert st. induction remaining as [|k IH]; intros st.
  - rewrite retry_loop_last, chat_run.
    destruct (attempt_outcome _); simpl; lia.
  - rewrite retry_loop_more, chat_run.
    destruct (attempt_outcome _); simpl; try lia.
    etrans; [apply IH|]. simpl. lia.
Qed.

(** The loop's log always starts with the first request. *)
Lemma retry_loop_trace url headers data remaining st :
  ∃ rest, trace (retry_loop 2 (chat w url headers data) remaining st).2
          = trace st ++ HttpPost url headers data :: rest.
Proof.
  revert st. induction remaining as [|k IH]; intros st.
  - rewrite retry_loop_last, chat_run.
    destruct (attempt_outcome _); simpl; by exists [].
  - rewrite retry_loop_more, chat_run.
    destruct (attempt_outcome _); simpl; try by exists [].
    destruct (IH (log (Sleep 2) (count_post (log (HttpPost url headers data) st))))
      as [rest ->].
    simpl. rewrite <- !app_assoc. simpl. eauto.
Qed.

End Insight.

(** * The run as a whole *)

Lemma bind_run {A B} (m : M A) (k : A → M B) st :
  bind m k st =
  match m st with
  | (Return a, st') => k a st'
  | (Raise e, st') => (Raise e, st')
  | (SysExit c, st') => (SysExit c, st')
  end.
Proof. done. Qed.

Section Run.

Context (lib : Libs) (w : World).

(** Either the run ends before the insight step, with status 1, or it
    reaches that step with the dataset loaded, the folder made and the
    charts drawn; up to there it only reads the CSV, prints, makes the
    folder and plots. *)
Lemma main_prefix (ok : event → Prop) (keep : string → Prop) st :
  (∀ p, ok (ReadCsv p)) → (∀ l, ok (Print l)) → (∀ p, ok (Makedirs p)) →
  (∀ c, ok (Plot c)) →
  ¬ keep (chart1_path (output_folder (dataset_arg w))) →
  ¬ keep (chart2_path (output_folder (dataset_arg w))) →
  (evolves ok keep st (main lib w st).2 ∧ exit_status (main lib w st).1 = 1%Z)
  ∨ ∃ df summary missing_values correlation_matrix st1 st2 st3,
      length (argv w) = 2%nat
      ∧ load_data lib (dataset_arg w) st = (Return df, st1)
      ∧ analyze_data lib df = Return (summary, missing_values, correlation_matrix)
      ∧ makedirs w (output_folder (dataset_arg w)) st1 = (Return tt, st2)
      ∧ generate_visualizations lib w df (output_folder (dataset_arg w)) st2 = (Return tt, st3)
      ∧ evolves ok keep st st3
      ∧ main lib w st
        = insight_and_report lib w (dataset_arg w) df summary missing_values correlation_matrix st3.
Proof.
  intros Hr Hp Hm Hplt H1 H2. unfold main. fold (dataset_arg w).
  case_bool_decide as Hargv.
  { left. rewrite bind_run. simpl. split; [|done]. by apply evolves_log. }
  rewrite bind_run.
  destruct (obeys_load_data ok keep lib (dataset_arg w) Hr Hp st) as [E1 X1].
  destruct (load_data lib (dataset_arg w) st) as [[df|e|c] st1] eqn:L; simpl in E1, X1;
    [|by left|left; split; [done | simpl; by apply X1]].
  rewrite bind_run. unfold lift.
  destruct (analyze_data lib df) as [[[summary missing_values] correlation_matrix]|e|c] eqn:A;
    cbv beta iota;
    [|by left|by destruct (analyze_data_no_exit lib df c)].
  rewrite bind_run.
  destruct (obeys_makedirs ok keep w (output_folder (dataset_arg w)) (Hm _) st1) as [E2 X2].
  destruct (makedirs w (output_folder (dataset_arg w)) st1) as [[[]|e|c] st2] eqn:K;
    simpl in E2, X2;
    [|left; split; [by eapply evolves_trans | done]
     |left; split; [by eapply evolves_trans | simpl; by apply X2]].
  rewrite bind_run.
  destruct (obeys_generate_visualizations ok keep lib w df (output_folder (dataset_arg w))
              Hplt H1 H2 st2) as [E3 X3].
  assert (evolves ok keep st st2) as E12 by (by eapply evolves_trans).
  destruct (generate_visualizations lib w df (output_folder (dataset_arg w)) st2)
    as [[[]|e|c] st3] eqn:V; simpl in E3, X3.
  - right. exists df, summary, missing_values, correlation_matrix, st1, st2, st3.
    split; [apply dec_stable; by intros ?|].
    do 4 (split; [done|]). split; [by eapply evolves_trans | done].
  - left. split; [by eapply evolves_trans | done].
  - left. split; [by eapply evolves_trans | simpl; by apply X3].
Qed.

End Run.

(** * Paths *)

Lemma string_length_app (a b : string) :
  String.length (a +:+ b) = (String.length a + String.length b)%nat.
Proof.
  induction a as [|c a IH]; [done|].
  change (String c a +:+ b) with (String c (a +:+ b)). simpl. by rewrite IH.
Qed.

Lemma path_join_length (folder : string) :
  (String.length (path_join folder "README.md") ≤ String.length folder + 10)%nat.
Proof.
  unfold path_join. simpl String.prefix. cbv iota.
  destruct (_ || _); rewrite !string_length_app; simpl; lia.
Qed.

(** The report and the two charts are three different paths. *)
Lemma readme_not_chart1 (folder : string) :
  chart1_path folder ≠ path_join folder "README.md".
Proof.
  intros H. pose proof (path_join_length folder) as L. rewrite <- H in L.
  unfold chart1_path in L. rewrite string_length_app in L. simpl in L. lia.
Qed.

Lemma readme_not_chart2 (folder : string) :
  chart2_path folder ≠ path_join folder "README.md".
Proof.
  intros H. pose proof (path_join_length folder) as L. rewrite <- H in L.
  unfold chart2_path in L. rewrite string_length_app in L. simpl in L. lia.
Qed.

Lemma chart1_not_chart2 (folder : string) : chart1_path folder ≠ chart2_path folder.
Proof. unfold chart1_path, chart2_path. by intros ?%(inj _). Qed.

(** * Retry and failure of the remote call *)

Section Retry.

Context (lib : Libs) (w : World).

Lemma get_openai_response_key api_key prompt :
  getenv w "OPENAI_API_KEY" = Some api_key → api_key ≠ ""%string →
  get_openai_response w prompt
  = retry_loop 2 (chat w api_url (request_headers api_key) (request_data prompt)) 2.
Proof.
  intros Hk Hne. unfold get_openai_response. rewrite Hk. by destruct api_key.
Qed.

(** Three failed attempts in a row: three requests, two sleeps of 2
    between them, and tenacity's [RetryError] around the last failure. *)
Lemma get_openai_response_exhausted api_key prompt st :
  getenv w "OPENAI_API_KEY" = Some api_key → api_key ≠ ""%string →
  attempt_fails (respond w (posts st)) →
  attempt_fails (respond w (S (posts st))) →
  attempt_fails (respond w (S (S (posts st)))) →
  ∃ e st',
    attempt_outcome (respond w (S (S (posts st)))) = Raise e
    ∧ get_openai_response w prompt st = (Raise (RetryError e), st')
    ∧ trace st' = trace st ++ [the_post api_key prompt; Sleep 2;
                               the_post api_key prompt; Sleep 2;
                               the_post api_key prompt]
    ∧ posts st' = (posts st + 3)%nat
    ∧ files st' = files st ∧ dirs st' = dirs st.
Proof.
  intros Hk Hne [e1 F1] [e2 F2] [e3 F3].
  rewrite (get_openai_response_key api_key) by done.
  eexists e3, _. split; [done|].
  rewrite retry_loop_more, chat_run, F1.
  rewrite retry_loop_more, chat_run. simpl posts. rewrite F2.
  rewrite retry_loop_last, chat_run. simpl posts. rewrite F3.
  split; [done|]. simpl. rewrite <- !app_assoc. simpl.
  repeat split; try done. lia.
Qed.

(** Without a credential, nothing is sent. *)
Lemma get_openai_response_unset prompt st :
  getenv w "OPENAI_API_KEY" = None →
  get_openai_response w prompt st
  = (SysExit 1, log (Print "Error: OPENAI_API_KEY not set.") st).
Proof. intros Hk. unfold get_openai_response. by rewrite Hk. Qed.

(** If the three answers from the current request count on are
    failures, the insight step does not return. *)
Lemma get_openai_response_no_return prompt st :
  attempt_fails (respond w (posts st)) →
  attempt_fails (respond w (S (posts st))) →
  attempt_fails (respond w (S (S (posts st)))) →
  ∃ o st', get_openai_response w prompt st = (o, st')
           ∧ exit_status o = 1%Z ∧ ∀ a, o ≠ Return a.
Proof.
  intros F1 F2 F3.
  destruct (getenv w "OPENAI_API_KEY") as [api_key|] eqn:Hk.
  - destruct (decide (api_key = ""%string)) as [->|Hne].
    + unfold get_openai_response. rewrite Hk. by eexists _, _.
    + destruct (get_openai_response_exhausted api_key prompt st) as (e & st' & _ & -> & _);
        try done.
      by eexists _, _.
  - rewrite get_openai_response_unset by done. by eexists _, _.
Qed.

End Retry.

Lemma count_posts_none (evs : list event) :
  Forall (λ e, is_post e = false) evs → count_posts evs = 0%nat.
Proof.
  unfold count_posts. induction 1 as [|e evs He _ IH]; [done|].
  by rewrite filter_cons_False by congruence.
Qed.

Lemma evolves_weaken (ok ok' : event → Prop) (keep : string → Prop) st st' :
  (∀ e, ok e → ok' e) → evolves ok keep st st' → evolves ok' keep st st'.
Proof.
  intros Hw (new & T & F & R). exists new. split; [done|]. split; [|done].
  eapply Forall_impl; eauto.
Qed.

Lemma evolves_no_posts (ok : event → Prop) (keep : string → Prop) st st' :
  (∀ e, ok e → is_post e = false) → evolves ok keep st st' → posts st' = posts st.
Proof.
  intros Hw (new & T & F & P & _). rewrite P, count_posts_none; [lia|].
  eapply Forall_impl; eauto.
Qed.

Lemma evolves_new_events (ok : event → Prop) (keep : string → Prop) st st' :
  evolves ok keep st st' →
  trace st' = trace st ++ new_events st st' ∧ Forall ok (new_events st st').
Proof. intros (new & T & F & _). by rewrite (new_events_app _ _ _ T). Qed.

Section Exhausted.

Context (lib : Libs) (w : World).

(** When the three answers the endpoint would give are failures, the
    run ends with status 1 whatever else happens, having done only what
    the stages before the report do. *)
Lemma main_exhausted (ok : event → Prop) (keep : string → Prop) st :
  (∀ p, ok (ReadCsv p)) → (∀ l, ok (Print l)) → (∀ p, ok (Makedirs p)) →
  (∀ c, ok (Plot c)) → (∀ n, ok (Sleep n)) → (∀ u h d, ok (HttpPost u h d)) →
  ¬ keep (chart1_path (output_folder (dataset_arg w))) →
  ¬ keep (chart2_path (output_folder (dataset_arg w))) →
  attempt_fails (respond w (posts st)) →
  attempt_fails (respond w (S (posts st))) →
  attempt_fails (respond w (S (S (posts st)))) →
  exit_status (main lib w st).1 = 1%Z ∧ evolves ok keep st (main lib w st).2.
Proof.
  intros Hr Hp Hm Hplt Hs Hh H1 H2 F1 F2 F3.
  destruct (main_prefix lib w (λ e, ok e ∧ is_post e = false) keep st)
    as [[E X]|(df & summary & mv & cm & st1 & st2 & st3 & _ & _ & _ & _ & _ & E & ->)];
    try done.
  - split; [done|]. eapply evolves_weaken; [|done]. by intros e [? _].
  - pose proof (evolves_no_posts _ _ _ _ (λ e H, proj2 H) E) as P.
    rewrite <- P in F1, F2, F3. unfold insight_and_report. rewrite bind_run.
    destruct (obeys_get_openai_response ok keep w
                (make_prompt lib df summary mv cm) Hp Hs Hh st3) as [E' _].
    destruct (get_openai_response_no_return w (make_prompt lib df summary mv cm) st3)
      as (o & st' & R & X & N); try done.
    rewrite R in E' |- *. simpl in E'.
    assert (evolves ok keep st st').
    { eapply evolves_trans; [|done]. eapply evolves_weaken; [|done]. by intros e [? _]. }
    destruct o as [a| |]; [by destruct (N a)|done..].
Qed.

End Exhausted.

(** C1.  With a credential set, the remote call is tried at most three
    times; an attempt that fails with a non-2xx status or a transport
    error is followed, after a sleep of 2, by the next one; and when the
    third has failed too the error leaves the insight step as tenacity's
    RetryError, which nothing in the run catches: the run ends with
    status 1. *)
Theorem retry_three_attempts_then_propagate
    (lib : Libs) (w : World) (api_key prompt : string) (st : State) :
  getenv w "OPENAI_API_KEY" = Some api_key → api_key ≠ ""%string →
  let run := get_openai_response w prompt st in
  let post := the_post api_key prompt in
  (posts run.2 ≤ posts st + 3)%nat
  ∧ (transient_error (respond w (posts st)) →
     ∃ rest, trace run.2 = trace st ++ [post; Sleep 2; post] ++ rest)
  ∧ (transient_error (respond w (posts st)) →
     transient_error (respond w (S (posts st))) →
     ∃ rest, trace run.2 = trace st ++ [post; Sleep 2; post; Sleep 2; post] ++ rest)
  ∧ (transient_error (respond w (posts st)) →
     transient_error (respond w (S (posts st))) →
     transient_error (respond w (S (S (posts st)))) →
     ∃ e, run.1 = Raise (RetryError e)
          ∧ trace run.2 = trace st ++ [post; Sleep 2; post; Sleep 2; post]
          ∧ posts run.2 = (posts st + 3)%nat
          ∧ (∀ filename df summary missing_values correlation_matrix,
               (insight_and_report lib w filename df summary missing_values
                  correlation_matrix st).1 = Raise (RetryError e))
          ∧ exit_status (main lib w st).1 = 1%Z).
Proof.
  intros Hk Hne run post. subst run post. unfold the_post.
  rewrite (get_openai_response_key w api_key) by done.
  split; [apply retry_loop_posts|].
  split.
  { intros [e1 F1]%transient_error_raises.
    rewrite retry_loop_more, chat_run, F1.
    destruct (retry_loop_trace w api_url (request_headers api_key) (request_data prompt) 1
                (log (Sleep 2) (count_post
                   (log (HttpPost api_url (request_headers api_key) (request_data prompt)) st))))
      as [rest ->].
    exists rest. simpl. by rewrite <- !app_assoc. }
  split.
  { intros [e1 F1]%transient_error_raises [e2 F2]%transient_error_raises.
    rewrite retry_loop_more, chat_run, F1.
    rewrite retry_loop_more, chat_run. simpl posts. rewrite F2.
    destruct (retry_loop_trace w api_url (request_headers api_key) (request_data prompt) 0
                (log (Sleep 2) (count_post
                   (log (HttpPost api_url (request_headers api_key) (request_data prompt))
                      (log (Sleep 2) (count_post
                         (log (HttpPost api_url (request_headers api_key)
                                 (request_data prompt)) st)))))))
      as [rest ->].
    exists rest. simpl. by rewrite <- !app_assoc. }
  intros T1 T2 T3.
  pose proof (transient_error_raises _ T1) as F1.
  pose proof (transient_error_raises _ T2) as F2.
  pose proof (transient_error_raises _ T3) as F3.
  destruct (get_openai_response_exhausted w api_key prompt st)
    as (e & st' & F3e & R & T & P & _); try done.
  rewrite (get_openai_response_key w api_key) in R by done.
  exists e. rewrite R. simpl. do 3 (split; [done|]). split.
  - intros filename df summary mv cm. unfold insight_and_report. rewrite bind_run.
    destruct (get_openai_response_exhausted w api_key
                (make_prompt lib df summary mv cm) st)
      as (e' & st'' & F3' & -> & _); try done.
    simpl. congruence.
  - by destruct (main_exhausted lib w (λ _, True) (λ _, False) st) as [X _]; auto.
Qed.

Lemma retry_three_attempts_witness :
  let w := Demo.world (Some "sk-test"%string) (λ _, Demo.server_error) Demo.nothing_refused in
  let run := get_openai_response w "prompt" Demo.disk in
  let post := the_post "sk-test" "prompt" in
  (posts run.2 ≤ posts Demo.disk + 3)%nat
  ∧ (transient_error (respond w (posts Demo.disk)) →
     ∃ rest, trace run.2 = trace Demo.disk ++ [post; Sleep 2; post] ++ rest)
  ∧ (transient_error (respond w (posts Demo.disk)) →
     transient_error (respond w (S (posts Demo.disk))) →
     ∃ rest, trace run.2 = trace Demo.disk ++ [post; Sleep 2; post; Sleep 2; post] ++ rest)
  ∧ (transient_error (respond w (posts Demo.disk)) →
     transient_error (respond w (S (posts Demo.disk))) →
     transient_error (respond w (S (S (posts Demo.disk)))) →
     ∃ e, run.1 = Raise (RetryError e)
          ∧ trace run.2 = trace Demo.disk ++ [post; Sleep 2; post; Sleep 2; post]
          ∧ posts run.2 = (posts Demo.disk + 3)%nat
          ∧ (∀ filename df summary missing_values correlation_matrix,
               (insight_and_report Demo.lib w filename df summary missing_values
                  correlation_matrix Demo.disk).1 = Raise (RetryError e))
          ∧ exit_status (main Demo.lib w Demo.disk).1 = 1%Z).
Proof.
  apply (retry_three_attempts_then_propagate Demo.lib
           (Demo.world (Some "sk-test"%string) (λ _, Demo.server_error) Demo.nothing_refused)
           "sk-test" "prompt" Demo.disk).
  - reflexivity.
  - discriminate.
Defined.

Example demo_run_three_failures :
  let w := Demo.world (Some "sk-test"%string) (λ _, Demo.server_error) Demo.nothing_refused in
  let run := main Demo.lib w Demo.disk in
  exit_status run.1 = 1%Z
  ∧ posts run.2 = 3%nat
  ∧ filter (λ e, is_post e || is_sleep e = true) (trace run.2)
    = [the_post "sk-test" (make_prompt Demo.lib Demo.ratings Demo.ratings
                              (isnull_sum Demo.ratings) (df_corr Demo.lib Demo.ratings));
       Sleep 2;
       the_post "sk-test" (make_prompt Demo.lib Demo.ratings Demo.ratings
                              (isnull_sum Demo.ratings) (df_corr Demo.lib Demo.ratings));
       Sleep 2;
       the_post "sk-test" (make_prompt Demo.lib Demo.ratings Demo.ratings
                              (isnull_sum Demo.ratings) (df_corr Demo.lib Demo.ratings))].
Proof. vm_compute. repeat split. Qed.

(** * Lenient parsing of the answer *)

(** A missing key falls back to the default of its [get]: without
    [choices], without [message] in the first choice, or without
    [content] in the message, the extracted text is empty. *)
Lemma missing_key_gives_empty_text (fields first message : list (string * json))
    (others : list json) :
  (dict_lookup "choices" fields = None →
   extract_content (JObj fields) = Return (JStr ""))
  ∧ (dict_lookup "choices" fields = Some (JArr (JObj first :: others)) →
     dict_lookup "message" first = None →
     extract_content (JObj fields) = Return (JStr ""))
  ∧ (dict_lookup "choices" fields = Some (JArr (JObj first :: others)) →
     dict_lookup "message" first = Some (JObj message) →
     dict_lookup "content" message = None →
     extract_content (JObj fields) = Return (JStr "")).
Proof.
  unfold extract_content. simpl. repeat split.
  - by intros ->.
  - intros -> H. simpl. by rewrite H.
  - intros -> H1 H2. simpl. rewrite H1. simpl. by rewrite H2.
Qed.

Lemma chat_missing_key_gives_empty_text w url headers data st resp fields :
  respond w (posts st) = Responded resp → status_code resp = 200%Z →
  json_body resp = Some (JObj fields) → dict_lookup "choices" fields = None →
  (chat w url headers data st).1 = Return (JStr "").
Proof.
  intros R S B C. rewrite chat_run, R. simpl.
  rewrite bool_decide_eq_true_2 by done. unfold response_json. rewrite B. simpl.
  by destruct (missing_key_gives_empty_text fields [] [] []) as [H _]; apply H.
Qed.

(** C2.  A 200 answer whose body is [{"choices": []}] has no message and
    no content, yet the attempt raises IndexError: the default of
    [get("choices", [{}])] is not used, since the key is there, and [[0]]
    of the empty list fails.  The exception is retried like any other and
    ends the insight step in RetryError, where a body without the key
    gives the empty text. *)
Theorem empty_choices_raises_index_error :
  let body := JObj [("choices"%string, JArr [])] in
  let w := Demo.world (Some "sk-test"%string) (λ _, Demo.answer body) Demo.nothing_refused in
  extract_content body = Raise (Exn "IndexError" "list index out of range")
  ∧ (chat w api_url (request_headers "sk-test") (request_data "prompt") Demo.disk).1
    = Raise (Exn "IndexError" "list index out of range")
  ∧ (get_openai_response w "prompt" Demo.disk).1
    = Raise (RetryError (Exn "IndexError" "list index out of range"))
  ∧ posts (get_openai_response w "prompt" Demo.disk).2 = 3%nat
  ∧ extract_content (JObj []) = Return (JStr "").
Proof. vm_compute. repeat split. Qed.

(** * The credential *)

(** C4.  With the credential variable unset, the insight step prints the
    diagnostic and exits with status 1 without sending anything; and the
    run as a whole ends with status 1 having made no request at all. *)
Theorem credential_unset_exits_before_any_request (lib : Libs) (w : World) (st : State) :
  getenv w "OPENAI_API_KEY" = None →
  (∀ prompt st',
     get_openai_response w prompt st'
     = (SysExit 1, log (Print "Error: OPENAI_API_KEY not set.") st'))
  ∧ exit_status (main lib w st).1 = 1%Z
  ∧ posts (main lib w st).2 = posts st
  ∧ Forall (λ e, is_post e = false) (new_events st (main lib w st).2).
Proof.
  intros Hk. split; [intros; by apply get_openai_response_unset|].
  assert (exit_status (main lib w st).1 = 1%Z
          ∧ evolves (λ e, is_post e = false) (λ _, False) st (main lib w st).2) as [X E].
  { destruct (main_prefix lib w (λ e, is_post e = false) (λ _, False) st)
      as [[E X]|(df & summary & mv & cm & st1 & st2 & st3 & _ & _ & _ & _ & _ & E & ->)];
      try done; auto.
    unfold insight_and_report. rewrite bind_run, get_openai_response_unset by done.
    split; [done|]. simpl. eapply evolves_trans; [done|]. by apply evolves_log. }
  split; [done|]. split.
  - by apply (evolves_no_posts _ _ _ _ (λ e H, H) E).
  - by apply (evolves_new_events _ _ _ _ E).
Qed.

Lemma credential_unset_witness :
  getenv (Demo.world None (λ _, Demo.answer Demo.story) Demo.nothing_refused)
    "OPENAI_API_KEY" = None
  ∧ exit_status (main Demo.lib (Demo.world None (λ _, Demo.answer Demo.story)
                                  Demo.nothing_refused) Demo.disk).1 = 1%Z
  ∧ posts (main Demo.lib (Demo.world None (λ _, Demo.answer Demo.story)
                            Demo.nothing_refused) Demo.disk).2 = posts Demo.disk.
Proof.
  split; [reflexivity|].
  pose proof (credential_unset_exits_before_any_request Demo.lib
                (Demo.world None (λ _, Demo.answer Demo.story) Demo.nothing_refused)
                Demo.disk eq_refl) as (_ & X & P & _).
  exact (conj X P).
Defined.

(** * No report after exhausted retries *)

(** C5.  When the three attempts fail, the run ends with status 1; no
    file is opened for writing and nothing is written, so the report
    writer, whose first act is to open README.md, was not reached, and
    README.md is as it was. *)
Theorem exhausted_retries_write_no_report (lib : Libs) (w : World) (st : State) :
  attempt_fails (respond w (posts st)) →
  attempt_fails (respond w (S (posts st))) →
  attempt_fails (respond w (S (S (posts st)))) →
  let readme := path_join (output_folder (dataset_arg w)) "README.md" in
  exit_status (main lib w st).1 = 1%Z
  ∧ Forall (λ e, is_report_write e = false) (new_events st (main lib w st).2)
  ∧ files (main lib w st).2 !! readme = files st !! readme.
Proof.
  intros F1 F2 F3 readme.
  destruct (main_exhausted lib w (λ e, is_report_write e = false) (λ p, p = readme) st)
    as [X E]; try done.
  - apply readme_not_chart1.
  - apply readme_not_chart2.
  - split; [done|]. split; [by apply (evolves_new_events _ _ _ _ E)|].
    destruct E as (_ & _ & _ & _ & K & _). by apply K.
Qed.

Lemma exhausted_retries_witness :
  let w := Demo.world (Some "sk-test"%string) (λ _, Demo.server_error) Demo.nothing_refused in
  attempt_fails (respond w 0)
  ∧ exit_status (main Demo.lib w Demo.disk).1 = 1%Z
  ∧ Forall (λ e, is_report_write e = false) (new_events Demo.disk (main Demo.lib w Demo.disk).2)
  ∧ files (main Demo.lib w Demo.disk).2 !! "data/README.md"%string = None.
Proof.
  intros w.
  assert (attempt_fails Demo.server_error) as F by (eexists; reflexivity).
  split; [exact F|].
  exact (exhausted_retries_write_no_report Demo.lib w Demo.disk F F F).
Defined.

(** * The Visualizer *)

Lemma dropna_no_missing (s : Series) : Forall (λ it, is_Some it.2) (s_items (dropna s)).
Proof.
  unfold dropna. simpl. apply Forall_forall. by intros it [? _]%list_elem_of_filter.
Qed.

Lemma has_column_getitem (df : DataFrame) (name : string) :
  has_column name df = true → ∃ col, df_getitem df name = Return col.
Proof.
  unfold has_column, df_getitem. intros H%bool_decide_eq_true.
  apply list_elem_of_fmap in H as (c & Hc & Hin).
  destruct (list_find _ _) as [[i c']|] eqn:F; [by eauto|].
  apply list_find_None in F. rewrite Forall_forall in F.
  by destruct (F c Hin).
Qed.

Lemma no_numeric_or_boolean_corr_empty (lib : Libs) (df : DataFrame) :
  no_numeric_or_boolean_column df →
  index (df_corr lib df) = [] ∧ columns (df_corr lib df) = []
  ∧ df_empty (df_corr lib df) = true.
Proof.
  intros H. assert (get_numeric_data df = []) as E.
  { unfold get_numeric_data. induction H as [|c cs Hc _ IH]; [done|].
    rewrite filter_cons_False by (rewrite Hc; simpl; congruence). done. }
  unfold df_corr, df_empty. rewrite E. done.
Qed.

Section Visualizer.

Context (lib : Libs) (w : World).

Lemma obeys_bind_lift {A B} ok keep (o : outcome A) (k : A → M B) :
  (∀ c, o ≠ SysExit c) → (∀ a, o = Return a → obeys ok keep (k a)) →
  obeys ok keep (bind (lift o) k).
Proof.
  intros Hx Hk st. unfold bind, lift. destruct o as [a|e|c].
  - by apply Hk.
  - split; [apply evolves_refl | done].
  - by destruct (Hx c).
Qed.

(** The first block only makes its own calls and only writes its own
    file. *)
Lemma obeys_chart1 ok keep df folder :
  Forall (λ c, ok (Plot c)) (chart1_calls (df_corr lib df) folder) →
  ¬ keep (chart1_path folder) →
  obeys ok keep (chart1 lib w df folder).
Proof.
  intros H Hk. unfold chart1. apply obeys_when, obeys_plt_seq.
  unfold chart1_calls in *. rewrite !Forall_cons in H. destruct_and!.
  repeat (apply Forall_cons_2;
          [split; [done | intros ? ? Heq; inversion Heq; by subst] |]).
  apply Forall_nil_2.
Qed.

Lemma obeys_chart2 ok keep df folder :
  ok (Plot (Figure 8 5)) →
  (∀ col, df_getitem df "average_rating" = Return col →
          Forall (λ c, ok (Plot c)) (chart2_calls col folder)) →
  ¬ keep (chart2_path folder) →
  obeys ok keep (chart2 lib w df folder).
Proof.
  intros Hf H Hk. unfold chart2. apply obeys_when.
  apply obeys_bind; [by apply obeys_plt|]. intros _.
  apply obeys_bind_lift; [apply df_getitem_no_exit|]. intros col Hcol.
  apply obeys_plt_seq. specialize (H col Hcol).
  unfold chart2_calls in *. rewrite !Forall_cons in H. destruct_and!.
  repeat (apply Forall_cons_2;
          [split; [done | intros ? ? Heq; inversion Heq; by subst] |]).
  apply Forall_nil_2.
Qed.

(** A call is logged whether or not it is refused, and what follows only
    adds to the log. *)
Lemma plt_first_event c (k : M unit) st :
  obeys (λ _, True) (λ _, False) k →
  ∃ rest, trace (bind (plt lib w c) (λ _, k) st).2 = trace st ++ Plot c :: rest.
Proof.
  intros Hk. unfold bind, plt, perform.
  destruct (fault w (Plot c) st); simpl; [by exists []|].
  match goal with |- context [k ?s] => destruct (Hk s) as [(new & T & _) _] end.
  rewrite T. exists new. by destruct c; simpl; rewrite <- app_assoc.
Qed.

Lemma obeys_anything_plt_seq cs : obeys (λ _, True) (λ _, False) (plt_seq lib w cs).
Proof. apply obeys_plt_seq. apply Forall_forall. intros c _. split; [done | tauto]. Qed.

Lemma chart1_first_event df folder st :
  df_empty (df_corr lib df) = false →
  ∃ rest, trace (chart1 lib w df folder st).2 = trace st ++ Plot (Figure 10 6) :: rest.
Proof.
  intros H. unfold chart1. rewrite H.
  apply (plt_first_event (Figure 10 6)
           (plt_seq lib w (tail (chart1_calls (df_corr lib df) folder)))).
  apply obeys_anything_plt_seq.
Qed.

Lemma chart2_first_event df folder st :
  has_column "average_rating" df = true →
  ∃ rest, trace (chart2 lib w df folder st).2 = trace st ++ Plot (Figure 8 5) :: rest.
Proof.
  intros H. unfold chart2. rewrite H.
  apply (plt_first_event (Figure 8 5)
           (bind (lift (df_getitem df "average_rating"))
              (λ col, plt_seq lib w (chart2_calls col folder)))).
  apply obeys_bind_lift; [apply df_getitem_no_exit|].
  intros col _. apply obeys_anything_plt_seq.
Qed.

Lemma chart1_skipped df folder st :
  df_empty (df_corr lib df) = true → chart1 lib w df folder st = (Return tt, st).
Proof. intros H. unfold chart1. by rewrite H. Qed.

Lemma chart2_skipped df folder st :
  has_column "average_rating" df = false → chart2 lib w df folder st = (Return tt, st).
Proof. intros H. unfold chart2. by rewrite H. Qed.

Lemma generate_visualizations_run df folder st :
  generate_visualizations lib w df folder st =
  match chart1 lib w df folder st with
  | (Return _, st1) => chart2 lib w df folder st1
  | (Raise e, st1) => (Raise e, st1)
  | (SysExit c, st1) => (SysExit c, st1)
  end.
Proof. done. Qed.

End Visualizer.

Section Attempts.

Context (lib : Libs) (w : World).

Lemma trace_after_chart2 df folder st :
  ∃ rest, trace (chart2 lib w df folder st).2 = trace st ++ rest.
Proof.
  assert (obeys (λ _, True) (λ _, False) (chart2 lib w df folder)) as H.
  { apply obeys_chart2; [done| |tauto]. intros col _. by apply Forall_forall. }
  destruct (H st) as [(new & T & _) _]. eauto.
Qed.

(** Chart 1 is attempted exactly when the correlation matrix is not
    empty, whatever the second block does. *)
Lemma chart1_attempted_iff df folder st :
  chart1_attempted (new_events st (generate_visualizations lib w df folder st).2)
  ↔ df_empty (df_corr lib df) = false.
Proof.
  unfold chart1_attempted. rewrite generate_visualizations_run.
  destruct (df_empty (df_corr lib df)) eqn:Hc.
  - rewrite chart1_skipped by done.
    assert (obeys (λ e, e ≠ Plot (Figure 10 6)) (λ _, False) (chart2 lib w df folder)) as H.
    { apply obeys_chart2; [done| |tauto].
      intros col _. unfold chart2_calls. by repeat constructor. }
    destruct (H st) as [E _].
    apply evolves_new_events in E as [_ F]. rewrite Forall_forall in F.
    split; [|done]. intros Hin. by destruct (F _ Hin).
  - split; [done|]. intros _.
    destruct (chart1_first_event lib w df folder st Hc) as [rest T].
    destruct (chart1 lib w df folder st) as [[[]|e|c] st1]; simpl in T.
    + destruct (trace_after_chart2 df folder st1) as [rest2 T2].
      rewrite (new_events_app st _ (Plot (Figure 10 6) :: rest ++ rest2)).
      * apply elem_of_cons. by left.
      * rewrite T2, T. by rewrite <- app_assoc.
    + simpl. rewrite (new_events_app st _ _ T). apply elem_of_cons. by left.
    + simpl. rewrite (new_events_app st _ _ T). apply elem_of_cons. by left.
Qed.

(** Chart 2 is attempted exactly when the column is there and the first
    block has not raised. *)
Lemma chart2_attempted_iff df folder st :
  chart2_attempted (new_events st (generate_visualizations lib w df folder st).2)
  ↔ has_column "average_rating" df = true ∧ (chart1 lib w df folder st).1 = Return tt.
Proof.
  unfold chart2_attempted. rewrite generate_visualizations_run.
  assert (obeys (λ e, e ≠ Plot (Figure 8 5)) (λ _, False) (chart1 lib w df folder)) as H.
  { apply obeys_chart1; [|tauto]. unfold chart1_calls. by repeat constructor. }
  destruct (H st) as [E _].
  apply evolves_new_events in E as [T F]. rewrite Forall_forall in F.
  destruct (chart1 lib w df folder st) as [[[]|e|c] st1]; simpl in *.
  - destruct (has_column "average_rating" df) eqn:Hc.
    + split; [done|]. intros _.
      destruct (chart2_first_event lib w df folder st1 Hc) as [rest T2].
      rewrite (new_events_app st _ (new_events st st1 ++ Plot (Figure 8 5) :: rest)).
      * apply elem_of_app. right. apply elem_of_cons. by left.
      * rewrite T2, T. by rewrite <- app_assoc.
    + rewrite chart2_skipped by done. split; [|by intros []].
      intros Hin. by destruct (F _ Hin).
  - split; [|by intros []]. intros Hin. by destruct (F _ Hin).
  - split; [|by intros []]. intros Hin. by destruct (F _ Hin).
Qed.

(** Whatever reaches [histplot] is the [average_rating] column with its
    missing entries dropped. *)
Lemma histplot_data df folder st :
  Forall (histplot_gets_present_values df)
    (new_events st (generate_visualizations lib w df folder st).2).
Proof.
  assert (obeys (histplot_gets_present_values df) (λ _, False)
            (generate_visualizations lib w df folder)) as H.
  { apply obeys_bind.
    - apply obeys_chart1; [|tauto]. unfold chart1_calls.
      repeat constructor; by intros ????.
    - intros _. apply obeys_chart2; [by intros ????| |tauto].
      intros col Hcol. unfold chart2_calls.
      repeat constructor; try by intros ????.
      intros data bins kde color [= <- <- _ _]. exists col.
      do 3 (split; [done|]). split; [apply dropna_no_missing | done]. }
  destruct (H st) as [E _]. by apply evolves_new_events in E as [_ F].
Qed.

(** Without the column, nothing of chart 2 happens. *)
Lemma chart2_not_produced df folder st :
  has_column "average_rating" df = false →
  Forall (λ e, produces_chart2 folder e = false)
    (new_events st (generate_visualizations lib w df folder st).2)
  ∧ files (generate_visualizations lib w df folder st).2 !! chart2_path folder
    = files st !! chart2_path folder.
Proof.
  intros Hc.
  assert (obeys (λ e, produces_chart2 folder e = false) (λ p, p = chart2_path folder)
            (generate_visualizations lib w df folder)) as H.
  { apply obeys_bind.
    - apply obeys_chart1; [|apply chart1_not_chart2]. unfold chart1_calls.
      repeat constructor. simpl. apply bool_decide_eq_false_2, chart1_not_chart2.
    - intros _. unfold chart2. rewrite Hc. apply obeys_ret. }
  destruct (H st) as [E _]. split; [by apply evolves_new_events in E as [_ F]|].
  destruct E as (_ & _ & _ & _ & K & _). by apply K.
Qed.

(** With an empty correlation matrix, nothing of chart 1 happens. *)
Lemma chart1_not_produced df folder st :
  df_empty (df_corr lib df) = true →
  Forall (λ e, produces_chart1 folder e = false)
    (new_events st (generate_visualizations lib w df folder st).2)
  ∧ files (generate_visualizations lib w df folder st).2 !! chart1_path folder
    = files st !! chart1_path folder.
Proof.
  intros Hc.
  assert (obeys (λ e, produces_chart1 folder e = false) (λ p, p = chart1_path folder)
            (generate_visualizations lib w df folder)) as H.
  { apply obeys_bind.
    - unfold chart1. rewrite Hc. apply obeys_ret.
    - intros _. apply obeys_chart2; [done| |].
      + intros col _. unfold chart2_calls. repeat constructor. simpl.
        apply bool_decide_eq_false_2. intros E. by destruct (chart1_not_chart2 folder).
      + intros E. by destruct (chart1_not_chart2 folder). }
  destruct (H st) as [E _]. split; [by apply evolves_new_events in E as [_ F]|].
  destruct E as (_ & _ & _ & _ & K & _). by apply K.
Qed.

(** What [load_data] returns has at least one column. *)
Lemma load_data_columns filename st df :
  (load_data lib filename st).1 = Return df → columns df ≠ [].
Proof.
  unfold load_data, try_except, bind, read_csv.
  destruct (files st !! filename); simpl; [|done].
  destruct (parse_csv lib _) as [df'|e]; simpl; [|done].
  case_bool_decide; simpl; [done|]. by intros [= <-].
Qed.

End Attempts.

(** The claim as stated fails: on a dataset that has the column, once
    the heatmap raises, the Visualizer ends with that exception and the
    histogram block is never entered. *)
Lemma chart1_failure_prevents_chart2 :
  let w := Demo.world None (λ _, Demo.server_error) DemoFaults.heatmap_fails in
  let run := generate_visualizations Demo.lib w Demo.ratings "data" Demo.disk in
  has_column "average_rating" Demo.ratings = true
  ∧ run.1 = Raise (Exn "ValueError" "zero-size array")
  ∧ chart1_attempted (new_events Demo.disk run.2)
  ∧ ¬ chart2_attempted (new_events Demo.disk run.2)
  ∧ files run.2 !! chart2_path "data" = None.
Proof.
  intros w run. split; [reflexivity|]. split; [reflexivity|].
  split; [apply chart1_attempted_iff; reflexivity|].
  split; [|reflexivity].
  intros [_ H]%chart2_attempted_iff. discriminate H.
Qed.

(** C3 (amended).  The two blocks have independent conditions but run
    one after the other with nothing caught: chart 1 is attempted exactly
    when the correlation matrix is not empty, whatever happens in the
    second block; chart 2 is attempted exactly when the column is there
    and the first block ended without raising; an exception in the first
    block is the Visualizer's outcome, with chart 2 not attempted. *)
Theorem chart_blocks_in_sequence (lib : Libs) (w : World) (df : DataFrame)
    (folder : string) (st : State) :
  let run := generate_visualizations lib w df folder st in
  let evs := new_events st run.2 in
  (chart1_attempted evs ↔ df_empty (df_corr lib df) = false)
  ∧ (chart2_attempted evs
     ↔ has_column "average_rating" df = true ∧ (chart1 lib w df folder st).1 = Return tt)
  ∧ (∀ e, (chart1 lib w df folder st).1 = Raise e →
          run = chart1 lib w df folder st ∧ ¬ chart2_attempted evs).
Proof.
  intros run evs. split; [apply chart1_attempted_iff|].
  split; [apply chart2_attempted_iff|].
  intros e He. split.
  - subst run. rewrite generate_visualizations_run.
    destruct (chart1 lib w df folder st) as [[[]|e'|c] st1]; simpl in He; done.
  - intros [_ H]%chart2_attempted_iff. congruence.
Qed.

(** The claim as stated fails: a dataset with a True/False column and a
    text column has no numeric column, yet [numeric_only=True] keeps the
    boolean one, the correlation matrix is not empty and chart 1 is
    drawn and saved. *)
Lemma boolean_column_gets_a_heatmap :
  let lib := Demo.lib_for DemoFaults.flags in
  let w := Demo.world None (λ _, Demo.server_error) Demo.nothing_refused in
  let run := generate_visualizations lib w DemoFaults.flags "data" Demo.disk in
  (load_data lib "data.csv" Demo.disk).1 = Return DemoFaults.flags
  ∧ no_numeric_column DemoFaults.flags
  ∧ df_empty (df_corr lib DemoFaults.flags) = false
  ∧ chart1_attempted (new_events Demo.disk run.2)
  ∧ files run.2 !! chart1_path "data" = Some "PNG"%string.
Proof.
  intros lib w run. split; [reflexivity|].
  split; [by repeat constructor|]. split; [reflexivity|].
  split; [apply chart1_attempted_iff; reflexivity | reflexivity].
Qed.

(** C6 (amended).  A dataset loaded from a CSV that has no integer, no
    float and no boolean column: the Analyzer returns, its correlation
    matrix has no row and no column, and the Visualizer neither attempts
    chart 1 nor touches its file. *)
Theorem no_numeric_or_boolean_column_no_heatmap (lib : Libs) (w : World)
    (filename : string) (st0 : State) (df : DataFrame) (folder : string) (st : State) :
  (load_data lib filename st0).1 = Return df →
  no_numeric_or_boolean_column df →
  let run := generate_visualizations lib w df folder st in
  let evs := new_events st run.2 in
  (∃ summary missing_values,
     analyze_data lib df = Return (summary, missing_values, df_corr lib df))
  ∧ index (df_corr lib df) = [] ∧ columns (df_corr lib df) = []
  ∧ df_empty (df_corr lib df) = true
  ∧ ¬ chart1_attempted evs
  ∧ Forall (λ e, produces_chart1 folder e = false) evs
  ∧ files run.2 !! chart1_path folder = files st !! chart1_path folder.
Proof.
  intros Hload Hnum run evs.
  destruct (no_numeric_or_boolean_corr_empty lib df Hnum) as (Hi & Hc & He).
  split.
  { unfold analyze_data, df_describe.
    rewrite bool_decide_eq_false_2 by (by eapply load_data_columns). simpl. eauto. }
  do 3 (split; [done|]). split.
  - intros H%chart1_attempted_iff. congruence.
  - by apply chart1_not_produced.
Qed.

Lemma no_numeric_or_boolean_column_witness :
  let lib := Demo.lib_for Demo.titles in
  let w := Demo.world None (λ _, Demo.server_error) Demo.nothing_refused in
  (load_data lib "data.csv" Demo.disk).1 = Return Demo.titles
  ∧ no_numeric_or_boolean_column Demo.titles
  ∧ df_empty (df_corr lib Demo.titles) = true
  ∧ files (generate_visualizations lib w Demo.titles "data" Demo.disk).2
      !! chart1_path "data" = None.
Proof.
  intros lib w.
  assert ((load_data lib "data.csv" Demo.disk).1 = Return Demo.titles) as L
    by reflexivity.
  assert (no_numeric_or_boolean_column Demo.titles) as N by (by repeat constructor).
  split; [exact L|]. split; [exact N|].
  pose proof (no_numeric_or_boolean_column_no_heatmap lib w "data.csv" Demo.disk
                Demo.titles "data" Demo.disk L N) as (_ & _ & _ & E & _ & _ & F).
  exact (conj E F).
Defined.

Section Histogram.

Context (lib : Libs) (w : World).

(** Once [plt.figure] has gone through, [histplot] is called next, on
    the column without its missing entries. *)
Lemma chart2_histplot_event df folder st col :
  has_column "average_rating" df = true →
  df_getitem df "average_rating" = Return col →
  fault w (Plot (Figure 8 5)) st = None →
  ∃ rest, trace (chart2 lib w df folder st).2
          = trace st ++ Plot (Figure 8 5)
                        :: Plot (Histplot (dropna col) 20 true "green") :: rest.
Proof.
  intros Hc Hcol Hf. unfold chart2. rewrite Hc. unfold when.
  rewrite bind_run. unfold plt at 1, perform. rewrite Hf. cbv beta iota.
  rewrite bind_run. unfold lift. rewrite Hcol. cbv beta iota.
  destruct (plt_first_event lib w (Histplot (dropna col) 20 true "green")
              (plt_seq lib w (tail (chart2_calls col folder)))
              (log (Plot (Figure 8 5)) st) (obeys_anything_plt_seq lib w _))
    as [rest T].
  exists rest. etrans; [exact T|]. simpl. by rewrite <- app_assoc.
Qed.

End Histogram.

(** The claim as stated fails: the dataset has the column, but saving
    the heatmap raises, the Visualizer ends there and the histogram
    block is never entered. *)
Lemma savefig_failure_prevents_histogram :
  let w := Demo.world None (λ _, Demo.server_error) DemoFaults.savefig_fails in
  let run := generate_visualizations Demo.lib w Demo.ratings "data" Demo.disk in
  "average_rating"%string ∈ map col_name (columns Demo.ratings)
  ∧ run.1 = Raise (Exn "PermissionError" "Permission denied")
  ∧ ¬ chart2_attempted (new_events Demo.disk run.2)
  ∧ Forall (λ e, produces_chart2 "data" e = false) (new_events Demo.disk run.2).
Proof.
  intros w run. split; [simpl; set_solver|]. split; [reflexivity|]. split.
  - intros [_ H]%chart2_attempted_iff. discriminate H.
  - vm_compute. by repeat constructor.
Qed.

(** C7 (amended).  Chart 2 is attempted if and only if the dataset has a
    column whose name is exactly [average_rating] and the first block
    has not raised.  Whatever reaches the histogram is that column with
    its missing entries dropped, and once the block's [plt.figure] has
    gone through the histogram is indeed called on it.  Without the
    column nothing of chart 2 happens and its file is untouched. *)
Theorem rating_histogram_iff_column_and_chart1 (lib : Libs) (w : World)
    (df : DataFrame) (folder : string) (st : State) :
  let run := generate_visualizations lib w df folder st in
  let evs := new_events st run.2 in
  (chart2_attempted evs
   ↔ "average_rating"%string ∈ map col_name (columns df)
     ∧ (chart1 lib w df folder st).1 = Return tt)
  ∧ Forall (histplot_gets_present_values df) evs
  ∧ (chart2_attempted evs →
     fault w (Plot (Figure 8 5)) (chart1 lib w df folder st).2 = None →
     ∃ col, df_getitem df "average_rating" = Return col
            ∧ Plot (Histplot {| s_dtype := s_dtype col;
                                s_items := filter (λ it, is_Some it.2) (s_items col) |}
                      20 true "green") ∈ evs)
  ∧ ("average_rating"%string ∉ map col_name (columns df) →
     ¬ chart2_attempted evs
     ∧ Forall (λ e, produces_chart2 folder e = false) evs
     ∧ files run.2 !! chart2_path folder = files st !! chart2_path folder).
Proof.
  intros run evs.
  assert (has_column "average_rating" df = true
          ↔ "average_rating"%string ∈ map col_name (columns df)) as Hcol.
  { unfold has_column. apply bool_decide_eq_true. }
  split; [|split; [|split]].
  - subst evs run. rewrite chart2_attempted_iff, Hcol. tauto.
  - apply histplot_data.
  - intros [Hc H1]%chart2_attempted_iff Hf. subst evs run.
    destruct (has_column_getitem df "average_rating" Hc) as [col Hget].
    exists col. split; [done|].
    rewrite generate_visualizations_run.
    assert (∃ new1, trace (chart1 lib w df folder st).2 = trace st ++ new1) as [new1 T1].
    { destruct (obeys_chart1 lib w (λ _, True) (λ _, False) df folder) with (st := st)
        as [(new & T & _) _]; [|tauto|by eauto].
      apply Forall_forall. by intros. }
    destruct (chart1 lib w df folder st) as [[[]|e|c] st1]; simpl in H1, Hf, T1; try done.
    destruct (chart2_histplot_event lib w df folder st1 col Hc Hget Hf) as [rest T2].
    rewrite (new_events_app st _
               (new1 ++ Plot (Figure 8 5)
                        :: Plot (Histplot (dropna col) 20 true "green") :: rest)).
    + apply elem_of_app. right. apply elem_of_cons. right. apply elem_of_cons. by left.
    + rewrite T2, T1. by rewrite <- app_assoc.
  - intros Hno. assert (has_column "average_rating" df = false) as Hf.
    { apply not_true_is_false. intros E. by apply Hno, Hcol. }
    split; [|by apply chart2_not_produced].
    intros [H _]%chart2_attempted_iff. congruence.
Qed.

(** The name is compared as it is: [Average_Rating] is another column. *)
Example average_rating_is_case_sensitive :
  has_column "average_rating" Demo.titles = false
  ∧ has_column "average_rating" Demo.ratings = true.
Proof. done. Qed.

(** On the demo dataset, with nothing refused, both charts are written
    and the histogram gets the two ratings that are present. *)
Example demo_visualizations :
  let w := Demo.world None (λ _, Demo.server_error) Demo.nothing_refused in
  let run := generate_visualizations Demo.lib w Demo.ratings "data" Demo.disk in
  run.1 = Return tt
  ∧ files run.2 !! chart1_path "data" = Some "PNG"%string
  ∧ files run.2 !! chart2_path "data" = Some "PNG"%string
  ∧ trace run.2 !! 7%nat
    = Some (Plot (Histplot {| s_dtype := float64;
                              s_items := [("0"%string, Some (CFloat "4.5"));
                                          ("2"%string, Some (CFloat "3.9"))] |}
                    20 true "green")).
Proof. vm_compute. repeat split. Qed.

(** * The Report Writer *)

Lemma string_app_assoc (a b c : string) : (a +:+ b) +:+ c = a +:+ (b +:+ c).
Proof.
  induction a as [|x a IH]; [done|].
  change (String x (a +:+ b) +:+ c = String x (a +:+ b +:+ c)).
  change (String x ((a +:+ b) +:+ c) = String x (a +:+ b +:+ c)). by rewrite IH.
Qed.

Lemma string_app_nil_r (a : string) : a +:+ "" = a.
Proof.
  induction a as [|x a IH]; [done|].
  change (String x (a +:+ "") = String x a). by rewrite IH.
Qed.

Lemma join_snoc (pieces : list string) (piece : string) :
  join (pieces ++ [piece]) = join pieces +:+ piece.
Proof.
  induction pieces as [|p ps IH]; simpl.
  - by rewrite string_app_nil_r.
  - by rewrite IH, string_app_assoc.
Qed.

Section Report.

Context (lib : Libs) (w : World).

Lemma writing_open readme st0 :
  fault w (OpenW readme) st0 = None →
  ∃ st, open_w w readme st0 = (Return tt, st) ∧ writing readme st0 [] st.
Proof.
  intros H. unfold open_w, perform. rewrite H. eexists. split; [done|].
  by repeat split.
Qed.

Lemma writing_write readme st0 writes st chunk :
  writing readme st0 writes st →
  ∃ st', f_write readme chunk st = (Return tt, st')
         ∧ writing readme st0 (writes ++ [chunk]) st'.
Proof.
  intros (F & D & P & T). unfold f_write. eexists. split; [done|].
  unfold writing. simpl. rewrite F, lookup_insert_eq, insert_insert_eq. simpl.
  rewrite join_snoc, T, map_app. simpl. rewrite <- app_assoc. done.
Qed.

Lemma writing_exists readme st0 writes st path :
  writing readme st0 writes st → path ≠ readme →
  path_exists path st = path_exists path st0.
Proof.
  intros (F & D & _) Hne. unfold path_exists.
  by rewrite F, D, lookup_insert_ne.
Qed.

End Report.

Section ReportRun.

Context (lib : Libs) (w : World).

Local Ltac write_step W :=
  match goal with
  | |- context [f_write ?p ?c ?s] =>
      let st' := fresh "st" in
      let E := fresh "E" in
      let W' := fresh "W" in
      destruct (writing_write p _ _ s c W) as (st' & E & W');
      rewrite E; clear E W; rename W' into W; cbv beta iota
  end.

Local Ltac report_done W :=
  eexists _, _; split; [done|]; split; [exact W|];
  unfold report_text, report_sections, join; simpl foldr;
  rewrite !string_app_assoc, ?string_app_nil_r; reflexivity.

(** One run of the report writer on a narrative that is a string, when
    README.md can be opened: it returns, and between its start and its
    end README.md was opened once and received the text of the report. *)
Lemma generate_report_run folder filename summary missing_values correlation_matrix
    (insights : string) st :
  let readme := path_join folder "README.md" in
  fault w (OpenW readme) st = None →
  ∃ st' writes,
    generate_report lib w folder filename summary missing_values correlation_matrix
      (JStr insights) st = (Return tt, st')
    ∧ writing readme st writes st'
    ∧ join writes
      = report_text lib filename summary missing_values correlation_matrix insights
          (path_exists (chart1_path folder) st) (path_exists (chart2_path folder) st).
Proof.
  intros readme Hopen. unfold generate_report. fold readme.
  rewrite bind_run.
  destruct (writing_open w readme st Hopen) as (st1 & -> & W). cbv beta iota zeta.
  do 9 (rewrite bind_run; write_step W).
  rewrite bind_run. unfold lift. simpl py_add_str. cbv beta iota.
  do 2 (rewrite bind_run; write_step W).
  rewrite bind_run. unfold os_path_exists at 1. cbv beta iota.
  rewrite (writing_exists readme st _ _ _ W (readme_not_chart1 folder)).
  rewrite bind_run.
  destruct (path_exists (chart1_path folder) st); unfold when at 1; cbv beta iota;
    [write_step W | unfold ret at 1; cbv beta iota];
    rewrite bind_run; unfold os_path_exists at 1; cbv beta iota;
    rewrite (writing_exists readme st _ _ _ W (readme_not_chart2 folder));
    (destruct (path_exists (chart2_path folder) st); unfold when; cbv beta iota;
     [write_step W | unfold ret]; report_done W).
Qed.

End ReportRun.

(** C8.  Given a narrative that is a string and a README.md that can be
    opened, the Report Writer returns having opened one file, README.md
    in the folder, and written only to it; the file then holds, in this
    order, the title, the dataset name, the summary-statistics table, the
    missing-values table, the correlation-matrix table, the narrative and
    the embeds, the embed of a chart being there exactly when the chart's
    file exists as the writer starts (the writer itself creates neither).
    Nothing else on disk changes. *)
Theorem report_is_the_sections_in_order (lib : Libs) (w : World)
    (folder filename : string) (summary : DataFrame) (missing_values : Series)
    (correlation_matrix : DataFrame) (insights : string) (st : State) :
  let readme := path_join folder "README.md" in
  fault w (OpenW readme) st = None →
  let run := generate_report lib w folder filename summary missing_values
               correlation_matrix (JStr insights) st in
  run.1 = Return tt
  ∧ files run.2
    = <[readme := join (report_sections lib filename summary missing_values
                          correlation_matrix insights
                          (path_exists (chart1_path folder) st)
                          (path_exists (chart2_path folder) st))]> (files st)
  ∧ dirs run.2 = dirs st
  ∧ ∃ writes, new_events st run.2 = OpenW readme :: map (FileWrite readme) writes.
Proof.
  intros readme Hopen run. subst run.
  destruct (generate_report_run lib w folder filename summary missing_values
              correlation_matrix insights st Hopen)
    as (st' & writes & -> & (F & D & _ & T) & J).
  simpl. split; [done|]. split; [by rewrite F, J|]. split; [done|].
  exists writes. by apply new_events_app.
Qed.

Lemma report_sections_witness :
  let w := Demo.world None (λ _, Demo.server_error) Demo.nothing_refused in
  let st := set_file "data/chart1.png" "PNG" Demo.disk in
  fault w (OpenW (path_join "data" "README.md")) st = None
  ∧ files (generate_report Demo.lib w "data" "data.csv" Demo.ratings
             (isnull_sum Demo.ratings) (df_corr Demo.lib Demo.ratings)
             (JStr "Ratings are high.") st).2 !! "data/README.md"%string
    = Some (join (report_sections Demo.lib "data.csv" Demo.ratings
                    (isnull_sum Demo.ratings) (df_corr Demo.lib Demo.ratings)
                    "Ratings are high." true false)).
Proof.
  intros w st. split; [reflexivity|].
  pose proof (report_is_the_sections_in_order Demo.lib w "data" "data.csv" Demo.ratings
                (isnull_sum Demo.ratings) (df_corr Demo.lib Demo.ratings)
                "Ratings are high." st eq_refl) as (_ & F & _).
  rewrite F. apply lookup_insert_eq.
Defined.

(** C9.  Two runs of the Report Writer on the same folder, file name,
    tables and narrative, over disks that agree on which chart files
    exist, leave byte-for-byte the same README.md, whatever was in it
    before; and a second run over the result of the first changes no
    file: it overwrites README.md with identical bytes. *)
Theorem report_is_deterministic (lib : Libs) (w1 w2 : World)
    (folder filename : string) (summary : DataFrame) (missing_values : Series)
    (correlation_matrix : DataFrame) (insights : string) (st1 st2 : State) :
  let readme := path_join folder "README.md" in
  let report w st := generate_report lib w folder filename summary missing_values
                       correlation_matrix (JStr insights) st in
  fault w1 (OpenW readme) st1 = None →
  fault w2 (OpenW readme) st2 = None →
  path_exists (chart1_path folder) st1 = path_exists (chart1_path folder) st2 →
  path_exists (chart2_path folder) st1 = path_exists (chart2_path folder) st2 →
  files (report w1 st1).2 !! readme = files (report w2 st2).2 !! readme
  ∧ is_Some (files (report w1 st1).2 !! readme)
  ∧ (fault w2 (OpenW readme) (report w1 st1).2 = None →
     files (report w2 (report w1 st1).2).2 = files (report w1 st1).2).
Proof.
  intros readme report H1 H2 E1 E2. subst report. cbv beta.
  destruct (generate_report_run lib w1 folder filename summary missing_values
              correlation_matrix insights st1 H1)
    as (st1' & writes1 & -> & W1 & J1).
  destruct (generate_report_run lib w2 folder filename summary missing_values
              correlation_matrix insights st2 H2)
    as (st2' & writes2 & -> & (F2 & _) & J2).
  pose proof W1 as (F1 & _). simpl.
  split; [|split].
  - rewrite F1, F2, !lookup_insert_eq. congruence.
  - rewrite F1, lookup_insert_eq. eauto.
  - intros H3.
    destruct (generate_report_run lib w2 folder filename summary missing_values
                correlation_matrix insights st1' H3)
      as (st3 & writes3 & -> & (F3 & _) & J3).
    simpl. rewrite F3, J3.
    rewrite (writing_exists readme st1 _ _ _ W1 (readme_not_chart1 folder)).
    rewrite (writing_exists readme st1 _ _ _ W1 (readme_not_chart2 folder)).
    rewrite <- J1, F1. apply insert_insert_eq.
Qed.

Lemma report_deterministic_witness :
  let w := Demo.world None (λ _, Demo.server_error) Demo.nothing_refused in
  let old := set_file "data/README.md" "an earlier report" Demo.disk in
  let report st := generate_report Demo.lib w "data" "data.csv" Demo.ratings
                     (isnull_sum Demo.ratings) (df_corr Demo.lib Demo.ratings)
                     (JStr "Ratings are high.") st in
  fault w (OpenW (path_join "data" "README.md")) Demo.disk = None
  ∧ path_exists (chart1_path "data") Demo.disk = path_exists (chart1_path "data") old
  ∧ files (report Demo.disk).2 !! "data/README.md"%string
    = files (report old).2 !! "data/README.md"%string.
Proof.
  intros w old report. split; [reflexivity|]. split; [reflexivity|].
  pose proof (report_is_deterministic Demo.lib w w "data" "data.csv" Demo.ratings
                (isnull_sum Demo.ratings) (df_corr Demo.lib Demo.ratings)
                "Ratings are high." Demo.disk old eq_refl eq_refl eq_refl eq_refl)
    as (E & _).
  exact E.
Defined.

(** * A run without credential *)

Section Unrefused.

Context (lib : Libs) (w : World).
Hypothesis nothing_refused : ∀ e st, fault w e st = None.

Lemma plt_unrefused c st :
  (plt lib w c st).1 = Return tt
  ∧ (∀ p, is_Some (files st !! p) → is_Some (files (plt lib w c st).2 !! p))
  ∧ ∀ p dpi, c = Savefig p dpi → is_Some (files (plt lib w c st).2 !! p).
Proof.
  unfold plt, perform. rewrite nothing_refused. simpl. split; [done|]. split.
  - intros p Hp. destruct c; simpl; try done.
    destruct (decide (path = p)) as [->|Hne].
    + rewrite lookup_insert_eq. eauto.
    + by rewrite lookup_insert_ne.
  - intros p dpi ->. simpl. rewrite lookup_insert_eq. eauto.
Qed.

Lemma plt_seq_unrefused cs st :
  (plt_seq lib w cs st).1 = Return tt
  ∧ ∀ p, (∃ dpi, Savefig p dpi ∈ cs) ∨ is_Some (files st !! p) →
         is_Some (files (plt_seq lib w cs st).2 !! p).
Proof.
  revert st. induction cs as [|c cs IH]; intros st.
  - split; [done|]. intros p [[dpi H]|H]; [|done]. by apply elem_of_nil in H.
  - simpl. rewrite bind_run.
    destruct (plt_unrefused c st) as (R & K & S).
    destruct (plt lib w c st) as [[[]|e|x] st1]; simpl in R; try done.
    destruct (IH st1) as [R' K']. split; [done|].
    intros p [[dpi H]|H]; apply K'.
    + apply elem_of_cons in H as [<-|H]; [right; by eapply S | left; eauto].
    + right. by apply K.
Qed.

(** With nothing refused the Visualizer returns, leaving behind each
    chart whose condition holds. *)
Lemma generate_visualizations_unrefused df folder st :
  (generate_visualizations lib w df folder st).1 = Return tt
  ∧ (df_empty (df_corr lib df) = false →
     is_Some (files (generate_visualizations lib w df folder st).2 !! chart1_path folder))
  ∧ (has_column "average_rating" df = true →
     is_Some (files (generate_visualizations lib w df folder st).2 !! chart2_path folder)).
Proof.
  rewrite generate_visualizations_run.
  assert ((chart1 lib w df folder st).1 = Return tt
          ∧ (df_empty (df_corr lib df) = false →
             is_Some (files (chart1 lib w df folder st).2 !! chart1_path folder)))
    as [R1 S1].
  { unfold chart1. destruct (df_empty (df_corr lib df)); simpl; [done|].
    destruct (plt_seq_unrefused (chart1_calls (df_corr lib df) folder) st) as [R K].
    split; [done|]. intros _. apply K. left. exists 300%nat.
    unfold chart1_calls. set_solver. }
  destruct (chart1 lib w df folder st) as [[[]|e|x] st1]; simpl in R1, S1; try done.
  unfold chart2. destruct (has_column "average_rating" df) eqn:Hc; simpl when.
  - destruct (has_column_getitem df "average_rating" Hc) as [col Hcol].
    rewrite bind_run. destruct (plt_unrefused (Figure 8 5) st1) as (R & K & _).
    destruct (plt lib w (Figure 8 5) st1) as [[[]|e|x] st2]; simpl in R; try done.
    rewrite bind_run. unfold lift. rewrite Hcol. cbv beta iota.
    destruct (plt_seq_unrefused (chart2_calls col folder) st2) as [R' K'].
    split; [done|]. split.
    + intros H. apply K'. right. apply K. by apply S1.
    + intros _. apply K'. left. exists 300%nat. unfold chart2_calls. set_solver.
  - split; [done|]. split; [done|]. done.
Qed.

Lemma load_data_ok filename st bytes df :
  files st !! filename = Some bytes → parse_csv lib bytes = inl df → columns df ≠ [] →
  (load_data lib filename st).1 = Return df.
Proof.
  intros F P C. unfold load_data, try_except, bind, read_csv. rewrite F, P.
  by rewrite bool_decide_eq_false_2.
Qed.

End Unrefused.

Section NoCredential.

Context (lib : Libs) (w : World).

(** The run of a loadable dataset in a world that refuses nothing and
    has no credential, stage by stage. *)
Lemma main_unset_run st prog filename df :
  argv w = [prog; filename] →
  (load_data lib filename st).1 = Return df →
  (∀ e s, fault w e s = None) →
  getenv w "OPENAI_API_KEY" = None →
  let folder := output_folder filename in
  ∃ st1 st3,
    load_data lib filename st = (Return df, st1)
    ∧ makedirs w folder st1 = (Return tt, add_dir folder (log (Makedirs folder) st1))
    ∧ generate_visualizations lib w df folder (add_dir folder (log (Makedirs folder) st1))
      = (Return tt, st3)
    ∧ main lib w st = (SysExit 1, log (Print "Error: OPENAI_API_KEY not set.") st3).
Proof.
  intros Hargv Hload Hno Hkey folder.
  destruct (load_data lib filename st) as [r st1] eqn:L. simpl in Hload. subst r.
  assert (makedirs w folder st1 = (Return tt, add_dir folder (log (Makedirs folder) st1)))
    as K by (unfold makedirs, perform; by rewrite Hno).
  destruct (generate_visualizations_unrefused lib w Hno df folder
              (add_dir folder (log (Makedirs folder) st1))) as [V _].
  destruct (generate_visualizations lib w df folder _) as [r st3] eqn:G.
  simpl in V. subst r.
  exists st1, st3. do 3 (split; [done|]).
  unfold main. rewrite Hargv.
  rewrite bool_decide_eq_false_2 by (simpl; lia).
  change (default ""%string ([prog; filename] !! 1%nat)) with filename.
  fold folder. rewrite bind_run, L.
  rewrite bind_run. unfold lift, analyze_data, df_describe.
  rewrite bool_decide_eq_false_2
    by (eapply (load_data_columns lib filename st); by rewrite L).
  cbn [obind]. cbv beta iota zeta.
  rewrite bind_run, K, bind_run, G, bind_run.
  by rewrite get_openai_response_unset.
Qed.

End NoCredential.

(** C10.  A dataset that loads, a world that refuses nothing, no
    credential: the run exits with status 1 only after the output
    directory was made and the Visualizer returned; the directory is
    there, each chart whose condition holds is on disk, no request was
    sent, and README.md was neither opened nor changed. *)
Theorem missing_credential_leaves_charts (lib : Libs) (w : World) (st : State)
    (prog filename : string) (df : DataFrame) :
  argv w = [prog; filename] →
  (load_data lib filename st).1 = Return df →
  (∀ e s, fault w e s = None) →
  getenv w "OPENAI_API_KEY" = None →
  let folder := output_folder filename in
  let readme := path_join folder "README.md" in
  let run := main lib w st in
  run.1 = SysExit 1
  ∧ folder ∈ dirs run.2
  ∧ (df_empty (df_corr lib df) = false → is_Some (files run.2 !! chart1_path folder))
  ∧ (has_column "average_rating" df = true → is_Some (files run.2 !! chart2_path folder))
  ∧ files run.2 !! readme = files st !! readme
  ∧ Forall (λ e, is_report_write e = false ∧ is_post e = false) (new_events st run.2)
  ∧ ∃ st1 st2 st3,
      load_data lib filename st = (Return df, st1)
      ∧ makedirs w folder st1 = (Return tt, st2)
      ∧ generate_visualizations lib w df folder st2 = (Return tt, st3)
      ∧ run.2 = log (Print "Error: OPENAI_API_KEY not set.") st3.
Proof.
  intros Hargv Hload Hno Hkey folder readme run. subst run.
  destruct (main_unset_run lib w st prog filename df Hargv Hload Hno Hkey)
    as (st1 & st3 & L & K & G & ->). fold folder in K, G.
  set (ok := λ e, is_report_write e = false ∧ is_post e = false).
  set (keep := λ p : string, p = readme).
  set (st2 := add_dir folder (log (Makedirs folder) st1)) in *.
  assert (evolves ok keep st st1) as E1.
  { destruct (obeys_load_data ok keep lib filename) with (st := st) as [E _]; try done.
    by rewrite L in E. }
  assert (evolves ok keep st1 st2) as E2.
  { destruct (obeys_makedirs ok keep w folder) with (st := st1) as [E _]; [done|].
    by rewrite K in E. }
  assert (evolves ok keep st2 st3) as E3.
  { destruct (obeys_generate_visualizations ok keep lib w df folder) with (st := st2)
      as [E _]; [done|apply readme_not_chart1|apply readme_not_chart2|].
    by rewrite G in E. }
  assert (evolves ok keep st (log (Print "Error: OPENAI_API_KEY not set.") st3)) as E.
  { eapply evolves_trans; [|by apply evolves_log].
    eapply evolves_trans; [|done]. by eapply evolves_trans. }
  destruct (generate_visualizations_unrefused lib w Hno df folder st2) as (_ & C1 & C2).
  rewrite G in C1, C2. simpl in C1, C2 |- *.
  split; [done|]. split.
  { destruct E3 as (_ & _ & _ & _ & _ & D). apply D. subst st2. simpl. set_solver. }
  do 2 (split; [done|]). split.
  { destruct E as (_ & _ & _ & _ & Kp & _). by apply Kp. }
  split; [by apply (evolves_new_events _ _ _ _ E)|].
  by exists st1, st2, st3.
Qed.

Lemma missing_credential_witness :
  let w := Demo.world None (λ _, Demo.answer Demo.story) Demo.nothing_refused in
  let run := main Demo.lib w Demo.disk in
  (load_data Demo.lib "data.csv" Demo.disk).1 = Return Demo.ratings
  ∧ run.1 = SysExit 1
  ∧ "data"%string ∈ dirs run.2
  ∧ is_Some (files run.2 !! "data/chart1.png"%string)
  ∧ is_Some (files run.2 !! "data/chart2.png"%string)
  ∧ files run.2 !! "data/README.md"%string = None.
Proof.
  intros w run.
  assert ((load_data Demo.lib "data.csv" Demo.disk).1 = Return Demo.ratings) as L
    by reflexivity.
  split; [exact L|].
  pose proof (missing_credential_leaves_charts Demo.lib w Demo.disk "autolysis.py"
                "data.csv" Demo.ratings eq_refl L (λ _ _, eq_refl) eq_refl)
    as (X & D & C1 & C2 & R & _).
  split; [exact X|]. split; [exact D|].
  split; [exact (C1 eq_refl)|]. split; [exact (C2 eq_refl)|]. exact R.
Defined.

(** * Whole runs of the demo *)

(** The endpoint answers at once: one request, no sleep, both charts
    embedded in the report, status 0. *)
Example demo_successful_run :
  let w := Demo.world (Some "sk-test"%string) (λ _, Demo.answer Demo.story)
             Demo.nothing_refused in
  let run := main Demo.lib w Demo.disk in
  exit_status run.1 = 0%Z
  ∧ posts run.2 = 1%nat
  ∧ filter (λ e, is_sleep e = true) (trace run.2) = []
  ∧ files run.2 !! "data/README.md"%string
    = Some (report_text Demo.lib "data.csv" Demo.ratings (isnull_sum Demo.ratings)
              (df_corr Demo.lib Demo.ratings) "Ratings are high." true true).
Proof. vm_compute. repeat split. Qed.

(** The endpoint fails once, then answers: two requests, one sleep of 2
    between them, and the report is written. *)
Example demo_one_retry :
  let w := Demo.world (Some "sk-test"%string)
             (λ n, match n with O => Demo.server_error | _ => Demo.answer Demo.story end)
             Demo.nothing_refused in
  let run := main Demo.lib w Demo.disk in
  exit_status run.1 = 0%Z
  ∧ posts run.2 = 2%nat
  ∧ filter (λ e, is_sleep e = true) (trace run.2) = [Sleep 2]
  ∧ is_Some (files run.2 !! "data/README.md"%string).
Proof. vm_compute. repeat split; eauto. Qed.

(** A missing value for [content] is no missing key: the narrative is
    [None], and the report writer stops at the narrative with a
    TypeError, leaving README.md cut short. *)
Example demo_null_content :
  let body := JObj [("choices"%string,
                     JArr [JObj [("message"%string, JObj [("content"%string, JNull)])]])] in
  let w := Demo.world (Some "sk-test"%string) (λ _, Demo.answer body)
             Demo.nothing_refused in
  let run := main Demo.lib w Demo.disk in
  extract_content body = Return JNull
  ∧ run.1 = Raise (Exn "TypeError" "unsupported operand type(s) for +")
  ∧ exit_status run.1 = 1%Z.
Proof. vm_compute. repeat split. Qed.

(** * More of the code: the loader *)

Section Loader.

Context (lib : Libs).

(** The three ways [read_csv] can fail and the one way it returns. *)
Lemma load_data_cases filename st :
  (∃ df bytes,
     files st !! filename = Some bytes ∧ parse_csv lib bytes = inl df ∧ columns df ≠ []
     ∧ load_data lib filename st
       = (Return df,
          log (Print ("Loaded dataset with " +:+ pretty (length (index df)) +:+ " rows and "
                      +:+ pretty (length (columns df)) +:+ " columns."))
            (log (ReadCsv filename) st)))
  ∨ (∃ e,
       load_data lib filename st
       = (SysExit 1,
          log (Print ("Error loading data: " +:+ exn_str e)) (log (ReadCsv filename) st))).
Proof.
  unfold load_data, try_except, bind, read_csv.
  destruct (files st !! filename) as [bytes|] eqn:F;
    [|right; by exists (Exn "FileNotFoundError" filename)].
  destruct (parse_csv lib bytes) as [df|e] eqn:P; [|right; by exists e].
  case_bool_decide as C;
    [right; by exists (Exn "EmptyDataError" "No columns to parse from file")|].
  left. by exists df, bytes.
Qed.

End Loader.

(** X1.  The loader lets no exception out.  It either returns a dataset
    with at least one column, parsed from the bytes of the file, having
    printed the numbers of its rows and columns; or prints a line that
    starts with "Error loading data: " and exits with status 1.  Either
    way it changes no file, makes no directory and sends no request. *)
Theorem load_data_returns_or_exits (lib : Libs) (filename : string) (st : State) :
  let run := load_data lib filename st in
  (∀ e, run.1 ≠ Raise e)
  ∧ (∀ df, run.1 = Return df →
       columns df ≠ []
       ∧ (∃ bytes, files st !! filename = Some bytes ∧ parse_csv lib bytes = inl df)
       ∧ new_events st run.2
         = [ReadCsv filename;
            Print ("Loaded dataset with " +:+ pretty (length (index df)) +:+ " rows and "
                   +:+ pretty (length (columns df)) +:+ " columns.")])
  ∧ (∀ c, run.1 = SysExit c →
       c = 1%Z
       ∧ ∃ e, new_events st run.2
              = [ReadCsv filename; Print ("Error loading data: " +:+ exn_str e)])
  ∧ files run.2 = files st ∧ dirs run.2 = dirs st ∧ posts run.2 = posts st.
Proof.
  intros run. subst run.
  destruct (load_data_cases lib filename st) as [(df & bytes & F & P & C & ->)|[e ->]];
    simpl.
  - split; [done|]. split.
    + intros df' [= <-]. split; [done|]. split; [by eauto|].
      apply new_events_app. simpl. by rewrite <- app_assoc.
    + split; [done|]. done.
  - split; [done|]. split; [done|]. split; [|done].
    intros c [= <-]. split; [done|]. exists e.
    apply new_events_app. simpl. by rewrite <- app_assoc.
Qed.

(** X2.  A run with the wrong number of arguments, or whose dataset does
    not load, ends with status 1 having only read and printed: no file
    changed, no directory made, nothing plotted, no request sent. *)
Theorem early_exit_leaves_disk_untouched (lib : Libs) (w : World) (st : State) :
  length (argv w) ≠ 2%nat ∨ (∀ df, (load_data lib (dataset_arg w) st).1 ≠ Return df) →
  let run := main lib w st in
  exit_status run.1 = 1%Z
  ∧ files run.2 = files st ∧ dirs run.2 = dirs st ∧ posts run.2 = posts st
  ∧ Forall (λ e, is_print_or_read e = true) (new_events st run.2)
  ∧ (length (argv w) ≠ 2%nat →
     run = (SysExit 1, log (Print "Usage: uv run autolysis.py <dataset.csv>") st)).
Proof.
  intros H run. subst run. unfold main. fold (dataset_arg w).
  case_bool_decide as Hargv.
  { rewrite bind_run. simpl. do 4 (split; [done|]). split; [|done].
    rewrite (new_events_app st _ [Print "Usage: uv run autolysis.py <dataset.csv>"]);
      [by repeat constructor | done]. }
  destruct H as [H|H]; [done|].
  rewrite bind_run.
  destruct (load_data_cases lib (dataset_arg w) st) as [(df & bytes & _ & _ & _ & L)|[e L]].
  { destruct (H df). by rewrite L. }
  rewrite L. simpl. do 4 (split; [done|]). split; [|done].
  erewrite new_events_app; [|simpl; by rewrite <- app_assoc].
  by repeat constructor.
Qed.

Lemma early_exit_witness :
  let w := Demo.world None (λ _, Demo.server_error) Demo.nothing_refused in
  let gone := {| files := ∅; dirs := ∅; posts := 0; trace := [] |} in
  (∀ df, (load_data Demo.lib (dataset_arg w) gone).1 ≠ Return df)
  ∧ exit_status (main Demo.lib w gone).1 = 1%Z
  ∧ files (main Demo.lib w gone).2 = ∅.
Proof.
  intros w gone.
  assert (∀ df, (load_data Demo.lib (dataset_arg w) gone).1 ≠ Return df) as H
    by (intros df; discriminate).
  split; [exact H|].
  pose proof (early_exit_leaves_disk_untouched Demo.lib w gone (or_intror H))
    as (X & F & _).
  exact (conj X F).
Defined.

(** * More of the code: the remote call *)

Lemma count_posts_attempts_log url headers data k :
  count_posts (attempts_log (HttpPost url headers data) k) = S k.
Proof.
  induction k as [|k IH]; [done|].
  simpl. unfold count_posts in *.
  rewrite filter_cons_True by done. rewrite filter_cons_False by done.
  simpl. by rewrite IH.
Qed.

Lemma count_sleeps_attempts_log url headers data k :
  count_sleeps (attempts_log (HttpPost url headers data) k) = k.
Proof.
  induction k as [|k IH]; [done|].
  simpl. unfold count_sleeps in *.
  rewrite filter_cons_False by done. rewrite filter_cons_True by done.
  simpl. by rewrite IH.
Qed.

Section RetryLog.

Context (w : World).

(** Whatever the endpoint answers, the loop's log is that of some number
    of failed attempts, at most [remaining], and one more attempt; and
    nothing but the log and the request count changes. *)
Lemma retry_loop_log url headers data remaining st :
  ∃ k, (k ≤ remaining)%nat
       ∧ trace (retry_loop 2 (chat w url headers data) remaining st).2
         = trace st ++ attempts_log (HttpPost url headers data) k
       ∧ posts (retry_loop 2 (chat w url headers data) remaining st).2
         = (posts st + S k)%nat
       ∧ files (retry_loop 2 (chat w url headers data) remaining st).2 = files st
       ∧ dirs (retry_loop 2 (chat w url headers data) remaining st).2 = dirs st.
Proof.
  revert st. induction remaining as [|r IH]; intros st.
  - exists 0%nat. rewrite retry_loop_last, chat_run.
    destruct (attempt_outcome _); simpl; repeat split; lia.
  - rewrite retry_loop_more, chat_run.
    destruct (attempt_outcome _); simpl;
      try (exists 0%nat; simpl; repeat split; lia).
    destruct (IH (log (Sleep 2) (count_post (log (HttpPost url headers data) st))))
      as (k & Hk & T & P & F & D).
    exists (S k). split; [lia|]. rewrite T, P, F, D. simpl.
    rewrite <- !app_assoc. simpl. repeat split. lia.
Qed.

(** [k] failures and then an answer that is accepted: the loop returns
    it after [k + 1] requests and [k] sleeps. *)
Lemma retry_loop_succeeds url headers data a k remaining st :
  (k ≤ remaining)%nat →
  (∀ i, (i < k)%nat → attempt_fails (respond w (posts st + i))) →
  attempt_outcome (respond w (posts st + k)) = Return a →
  (retry_loop 2 (chat w url headers data) remaining st).1 = Return a
  ∧ trace (retry_loop 2 (chat w url headers data) remaining st).2
    = trace st ++ attempts_log (HttpPost url headers data) k
  ∧ posts (retry_loop 2 (chat w url headers data) remaining st).2 = (posts st + S k)%nat.
Proof.
  revert remaining st. induction k as [|k IH]; intros remaining st Hk Hf Ha.
  - rewrite Nat.add_0_r in Ha.
    destruct remaining; [rewrite retry_loop_last|rewrite retry_loop_more];
      rewrite chat_run, Ha; simpl; repeat split; lia.
  - destruct remaining as [|r]; [lia|].
    destruct (Hf 0%nat) as [e He]; [lia|]. rewrite Nat.add_0_r in He.
    rewrite retry_loop_more, chat_run, He.
    destruct (IH r (log (Sleep 2) (count_post (log (HttpPost url headers data) st))))
      as (R & T & P); [lia| | |].
    + intros i Hi. simpl. replace (S (posts st + i)) with (posts st + S i)%nat by lia.
      apply Hf. lia.
    + simpl. by replace (S (posts st + k)) with (posts st + S k)%nat by lia.
    + rewrite R, T, P. simpl. rewrite <- !app_assoc. simpl. repeat split. lia.
Qed.

End RetryLog.

(** X3.  An empty credential counts as none: the insight step prints the
    diagnostic and exits with status 1 without sending anything, and the
    run as a whole makes no request. *)
Theorem empty_credential_is_unset (lib : Libs) (w : World) (st : State) :
  getenv w "OPENAI_API_KEY" = Some ""%string →
  (∀ prompt st',
     get_openai_response w prompt st'
     = (SysExit 1, log (Print "Error: OPENAI_API_KEY not set.") st'))
  ∧ exit_status (main lib w st).1 = 1%Z
  ∧ posts (main lib w st).2 = posts st
  ∧ Forall (λ e, is_post e = false) (new_events st (main lib w st).2).
Proof.
  intros Hk.
  assert (∀ prompt st',
            get_openai_response w prompt st'
            = (SysExit 1, log (Print "Error: OPENAI_API_KEY not set.") st')) as G.
  { intros. unfold get_openai_response. by rewrite Hk. }
  split; [done|].
  assert (exit_status (main lib w st).1 = 1%Z
          ∧ evolves (λ e, is_post e = false) (λ _, False) st (main lib w st).2) as [X E].
  { destruct (main_prefix lib w (λ e, is_post e = false) (λ _, False) st)
      as [[E X]|(df & summary & mv & cm & st1 & st2 & st3 & _ & _ & _ & _ & _ & E & ->)];
      try done; auto.
    unfold insight_and_report. rewrite bind_run, G.
    split; [done|]. simpl. eapply evolves_trans; [done|]. by apply evolves_log. }
  split; [done|]. split.
  - by apply (evolves_no_posts _ _ _ _ (λ e H, H) E).
  - by apply (evolves_new_events _ _ _ _ E).
Qed.

Lemma empty_credential_witness :
  let w := Demo.world (Some ""%string) (λ _, Demo.answer Demo.story) Demo.nothing_refused in
  getenv w "OPENAI_API_KEY" = Some ""%string
  ∧ exit_status (main Demo.lib w Demo.disk).1 = 1%Z
  ∧ posts (main Demo.lib w Demo.disk).2 = posts Demo.disk.
Proof.
  intros w. split; [reflexivity|].
  pose proof (empty_credential_is_unset Demo.lib w Demo.disk eq_refl) as (_ & X & P & _).
  exact (conj X P).
Defined.

(** X4.  With a credential, if the first [k] answers (k at most 2) are
    failures and the next one is accepted, the insight step returns the
    accepted value after exactly [k + 1] requests with a sleep of 2 after
    each failure; in particular an answer accepted at once costs one
    request and no sleep. *)
Theorem answer_after_failures_is_returned (w : World) (api_key prompt : string)
    (a : json) (k : nat) (st : State) :
  getenv w "OPENAI_API_KEY" = Some api_key → api_key ≠ ""%string →
  (k ≤ 2)%nat →
  (∀ i, (i < k)%nat → attempt_fails (respond w (posts st + i))) →
  attempt_outcome (respond w (posts st + k)) = Return a →
  let run := get_openai_response w prompt st in
  run.1 = Return a
  ∧ new_events st run.2 = attempts_log (the_post api_key prompt) k
  ∧ posts run.2 = (posts st + S k)%nat
  ∧ count_sleeps (new_events st run.2) = k.
Proof.
  intros Hk Hne Hle Hf Ha run. subst run.
  rewrite (get_openai_response_key w api_key) by done.
  destruct (retry_loop_succeeds w api_url (request_headers api_key) (request_data prompt)
              a k 2 st Hle Hf Ha) as (R & T & P).
  split; [done|]. rewrite (new_events_app _ _ _ T).
  split; [done|]. split; [done|]. apply count_sleeps_attempts_log.
Qed.

Lemma answer_after_failures_witness :
  let w := Demo.world (Some "sk-test"%string)
             (λ n, match n with O => Demo.server_error | _ => Demo.answer Demo.story end)
             Demo.nothing_refused in
  let run := get_openai_response w "prompt" Demo.disk in
  attempt_outcome (respond w 1) = Return (JStr "Ratings are high.")
  ∧ run.1 = Return (JStr "Ratings are high.")
  ∧ new_events Demo.disk run.2
    = [the_post "sk-test" "prompt"; Sleep 2; the_post "sk-test" "prompt"].
Proof.
  intros w run. split; [reflexivity|].
  assert (∀ i, (i < 1)%nat → attempt_fails (respond w (posts Demo.disk + i))) as F.
  { intros i Hi. replace i with 0%nat by lia. eexists. reflexivity. }
  pose proof (answer_after_failures_is_returned w "sk-test" "prompt"
                (JStr "Ratings are high.") 1 Demo.disk eq_refl
                ltac:(discriminate) ltac:(lia) F eq_refl) as (R & T & _).
  exact (conj R T).
Defined.

(** X5.  Only status 200 is a success: on any other status, 201 or 204
    as well as 404 or 500, the attempt raises an [Exception] whose
    message is "API Error: ", the status, " - " and the text of the
    response, even when the body holds a complete answer. *)
Theorem only_status_200_is_accepted (w : World) (url : string)
    (headers : list (string * string)) (data : json) (st : State) (resp : response) :
  respond w (posts st) = Responded resp →
  status_code resp ≠ 200%Z →
  chat w url headers data st
  = (Raise (Exn "Exception"
              ("API Error: " +:+ pretty (status_code resp) +:+ " - " +:+ text resp)),
     count_post (log (HttpPost url headers data) st)).
Proof.
  intros R S. rewrite chat_run, R. simpl. by rewrite bool_decide_eq_false_2.
Qed.

Lemma only_status_200_witness :
  let created := Responded {| status_code := 201; text := "Created";
                              json_body := Some Demo.story |} in
  let w := Demo.world (Some "sk-test"%string) (λ _, created) Demo.nothing_refused in
  respond w (posts Demo.disk) = created
  ∧ (chat w api_url (request_headers "sk-test") (request_data "prompt") Demo.disk).1
    = Raise (Exn "Exception" "API Error: 201 - Created").
Proof.
  intros created w. split; [reflexivity|].
  pose proof (only_status_200_is_accepted w api_url (request_headers "sk-test")
                (request_data "prompt") Demo.disk _ eq_refl ltac:(discriminate)) as H.
  exact (f_equal fst H).
Defined.

(** X6.  The error that leaves the insight step after three failures
    wraps the exception of the third attempt, not of the first. *)
Theorem retry_error_wraps_last_failure (w : World) (api_key prompt : string)
    (e1 e2 e3 : exn) (st : State) :
  getenv w "OPENAI_API_KEY" = Some api_key → api_key ≠ ""%string →
  attempt_outcome (respond w (posts st)) = Raise e1 →
  attempt_outcome (respond w (S (posts st))) = Raise e2 →
  attempt_outcome (respond w (S (S (posts st)))) = Raise e3 →
  (get_openai_response w prompt st).1 = Raise (RetryError e3).
Proof.
  intros Hk Hne F1 F2 F3.
  destruct (get_openai_response_exhausted w api_key prompt st)
    as (e & st' & F & -> & _); try done; try by eexists.
  simpl. congruence.
Qed.

Lemma retry_error_wraps_last_witness :
  let w := Demo.world (Some "sk-test"%string)
             (λ n, match n with
                   | 2 => Demo.answer (JArr [])
                   | _ => Demo.server_error
                   end)
             Demo.nothing_refused in
  attempt_outcome (respond w (S (S (posts Demo.disk))))
  = Raise (Exn "AttributeError" "object has no attribute 'get'")
  ∧ (get_openai_response w "prompt" Demo.disk).1
    = Raise (RetryError (Exn "AttributeError" "object has no attribute 'get'")).
Proof.
  intros w. split; [reflexivity|].
  exact (retry_error_wraps_last_failure w "sk-test" "prompt" _ _ _ Demo.disk eq_refl
           ltac:(discriminate) eq_refl eq_refl eq_refl).
Defined.

(** Which bodies the chain of [get]s and [[0]] accepts, and what it
    makes of them. *)
Lemma extract_content_accepts (body v : json) :
  extract_content body = Return v
  ↔ ∃ fields choice message,
      body = JObj fields
      ∧ first_choice fields = Some choice
      ∧ message_of choice = Some message
      ∧ v = default (JStr "") (dict_lookup "content" message).
Proof.
  unfold extract_content. split.
  - destruct body as [| | | | |fields]; simpl; try done.
    destruct (dict_lookup "choices" fields)
      as [[| | |[|]|[|[| | | | |first] others]|]|] eqn:C; simpl; try done.
    + destruct (dict_lookup "message" first) as [[| | | | |message]|] eqn:Mg;
        simpl; try done.
      * intros [= <-]. exists fields, first, message.
        unfold first_choice, message_of. by rewrite C, Mg.
      * intros [= <-]. exists fields, first, [].
        unfold first_choice, message_of. by rewrite C, Mg.
    + intros [= <-]. exists fields, [], [].
      unfold first_choice, message_of. by rewrite C.
  - intros (fields & choice & message & -> & C & Mg & ->). simpl.
    unfold first_choice in C. unfold message_of in Mg.
    destruct (dict_lookup "choices" fields) as [[| | | |[|[| | | | |first] others]|]|];
      simpl in *; try done.
    + injection C as <-.
      destruct (dict_lookup "message" first) as [[| | | | |m]|]; simpl in *; try done.
      * by injection Mg as <-.
      * by injection Mg as <-.
    + injection C as <-. simpl in Mg. by injection Mg as <-.
Qed.

(** X7.  An attempt's body is accepted exactly when it is an object
    whose [choices] is missing or a list that starts with an object,
    and in that object [message] is missing or an object; the narrative
    is then what [content] holds in the message, or the empty text.  Any
    other body (a list, null, an empty or null [choices], a null
    [message]) makes the attempt raise. *)
Theorem accepted_bodies (body : json) :
  (∀ v, extract_content body = Return v
        ↔ ∃ fields choice message,
            body = JObj fields
            ∧ first_choice fields = Some choice
            ∧ message_of choice = Some message
            ∧ v = default (JStr "") (dict_lookup "content" message))
  ∧ ((∀ v, extract_content body ≠ Return v) → ∃ e, extract_content body = Raise e).
Proof.
  split; [intros v; apply extract_content_accepts|].
  intros H. destruct (extract_content body) as [v|e|c] eqn:E.
  - by destruct (H v).
  - by exists e.
  - by destruct (extract_content_no_exit body c).
Qed.

(** X8.  With a credential, a first answer with status 200 whose body
    lacks a key on the way to the content gives the empty narrative at
    once: one request, no sleep, no retry. *)
Theorem missing_key_is_not_retried (w : World) (api_key prompt : string) (st : State)
    (resp : response) (fields : list (string * json)) :
  getenv w "OPENAI_API_KEY" = Some api_key → api_key ≠ ""%string →
  respond w (posts st) = Responded resp →
  status_code resp = 200%Z →
  json_body resp = Some (JObj fields) →
  key_missing fields →
  get_openai_response w prompt st
  = (Return (JStr ""), count_post (log (the_post api_key prompt) st)).
Proof.
  intros Hk Hne R S B (choice & message & C & Mg & N).
  rewrite (get_openai_response_key w api_key) by done.
  rewrite retry_loop_more, chat_run, R. simpl.
  rewrite bool_decide_eq_true_2 by done. unfold response_json. rewrite B. simpl.
  assert (extract_content (JObj fields) = Return (JStr "")) as ->; [|done].
  apply extract_content_accepts. exists fields, choice, message. by rewrite N.
Qed.

Lemma missing_key_witness :
  let body := JObj [("choices"%string, JArr [JObj [("finish_reason"%string, JStr "stop")]])] in
  let w := Demo.world (Some "sk-test"%string) (λ _, Demo.answer body) Demo.nothing_refused in
  key_missing [("choices"%string, JArr [JObj [("finish_reason"%string, JStr "stop")]])]
  ∧ get_openai_response w "prompt" Demo.disk
    = (Return (JStr ""), count_post (log (the_post "sk-test" "prompt") Demo.disk)).
Proof.
  intros body w.
  assert (key_missing [("choices"%string, JArr [JObj [("finish_reason"%string, JStr "stop")]])])
    as K.
  { exists [("finish_reason"%string, JStr "stop")], []. repeat split. }
  split; [exact K|].
  exact (missing_key_is_not_retried w "sk-test" "prompt" Demo.disk _ _ eq_refl
           ltac:(discriminate) eq_refl eq_refl eq_refl K).
Defined.

(** X9.  With a credential, the insight step changes no file and no
    directory; all it logs are requests and sleeps, every sleep lasts 2,
    and every request is, literally, a POST to
    https://api.openai.com/v1/chat/completions with the headers
    Authorization: Bearer <credential> and Content-Type:
    application/json, whose JSON names the model gpt-3.5-turbo and
    carries two messages, the system message "You are a data analyst."
    and the prompt as the user's; between one and three are sent. *)
Theorem insight_step_only_talks (w : World) (api_key prompt : string) (st : State) :
  getenv w "OPENAI_API_KEY" = Some api_key → api_key ≠ ""%string →
  let run := get_openai_response w prompt st in
  let request :=
    HttpPost "https://api.openai.com/v1/chat/completions"
      [ ("Authorization", "Bearer " +:+ api_key);
        ("Content-Type", "application/json") ]%string
      (JObj [ ("model", JStr "gpt-3.5-turbo");
              ("messages",
               JArr [ JObj [("role", JStr "system");
                            ("content", JStr "You are a data analyst.")];
                      JObj [("role", JStr "user"); ("content", JStr prompt)] ]) ]%string) in
  files run.2 = files st ∧ dirs run.2 = dirs st
  ∧ Forall (λ e, e = request ∨ e = Sleep 2) (new_events st run.2)
  ∧ (∃ rest, new_events st run.2 = request :: rest)
  ∧ (posts st < posts run.2 ≤ posts st + 3)%nat
  ∧ count_posts (new_events st run.2) = (posts run.2 - posts st)%nat.
Proof.
  intros Hk Hne run request. subst run.
  rewrite (get_openai_response_key w api_key) by done.
  destruct (retry_loop_log w api_url (request_headers api_key) (request_data prompt) 2 st)
    as (k & Hle & T & P & F & D).
  change (HttpPost api_url (request_headers api_key) (request_data prompt))
    with request in T.
  split; [done|]. split; [done|].
  rewrite (new_events_app _ _ _ T).
  split; [|split; [by destruct k; eexists|split; [lia|]]].
  - clear. induction k as [|k IH]; simpl.
    + apply Forall_cons_2; [by left | apply Forall_nil_2].
    + apply Forall_cons_2; [by left|]. apply Forall_cons_2; [by right | exact IH].
  - subst request. rewrite count_posts_attempts_log. lia.
Qed.

Lemma insight_step_witness :
  let w := Demo.world (Some "sk-test"%string) (λ _, Demo.server_error) Demo.nothing_refused in
  getenv w "OPENAI_API_KEY" = Some "sk-test"%string
  ∧ files (get_openai_response w "prompt" Demo.disk).2 = files Demo.disk
  ∧ count_posts (new_events Demo.disk (get_openai_response w "prompt" Demo.disk).2)
    = (posts (get_openai_response w "prompt" Demo.disk).2 - posts Demo.disk)%nat.
Proof.
  intros w. split; [reflexivity|].
  pose proof (insight_step_only_talks w "sk-test" "prompt" Demo.disk eq_refl
                ltac:(discriminate)) as (F & _ & _ & _ & _ & C).
  exact (conj F C).
Defined.

(** * More of the code: the report writer *)

Section ReportEdges.

Context (lib : Libs) (w : World).

Local Ltac write_step W :=
  match goal with
  | |- context [f_write ?p ?c ?s] =>
      let st' := fresh "st" in
      let E := fresh "E" in
      let W' := fresh "W" in
      destruct (writing_write p _ _ s c W) as (st' & E & W');
      rewrite E; clear E W; rename W' into W; cbv beta iota
  end.

(** A narrative that is no string: the writer has opened README.md and
    written everything up to the heading of the narrative when the
    concatenation raises. *)
Lemma generate_report_not_text folder filename summary missing_values correlation_matrix
    (insights : json) st :
  let readme := path_join folder "README.md" in
  fault w (OpenW readme) st = None →
  (∀ s, insights ≠ JStr s) →
  ∃ st' writes,
    generate_report lib w folder filename summary missing_values correlation_matrix
      insights st = (Raise (Exn "TypeError" "unsupported operand type(s) for +"), st')
    ∧ writing readme st writes st'
    ∧ join writes
      = report_before_narrative lib filename summary missing_values correlation_matrix.
Proof.
  intros readme Hopen Hns. unfold generate_report. fold readme.
  rewrite bind_run.
  destruct (writing_open w readme st Hopen) as (st1 & -> & W). cbv beta iota zeta.
  do 9 (rewrite bind_run; write_step W).
  rewrite bind_run. unfold lift.
  assert (py_add_str insights (nl +:+ nl)
          = Raise (Exn "TypeError" "unsupported operand type(s) for +")) as ->.
  { destruct insights; try done. by destruct (Hns s). }
  cbv beta iota. eexists _, _. split; [done|]. split; [exact W|].
  unfold report_before_narrative, report_sections, join. simpl.
  rewrite !string_app_assoc, ?string_app_nil_r. reflexivity.
Qed.

(** A refused [open] is the writer's outcome, with nothing written. *)
Lemma generate_report_refused folder filename summary missing_values correlation_matrix
    insights st e :
  fault w (OpenW (path_join folder "README.md")) st = Some e →
  generate_report lib w folder filename summary missing_values correlation_matrix
    insights st = (Raise e, log (OpenW (path_join folder "README.md")) st).
Proof.
  intros H. unfold generate_report. rewrite bind_run. unfold open_w, perform.
  by rewrite H.
Qed.

(** When the writer returns, README.md is there. *)
Lemma generate_report_returned folder filename summary missing_values correlation_matrix
    insights st :
  (generate_report lib w folder filename summary missing_values correlation_matrix
     insights st).1 = Return tt →
  is_Some (files (generate_report lib w folder filename summary missing_values
                    correlation_matrix insights st).2 !! path_join folder "README.md").
Proof.
  destruct (fault w (OpenW (path_join folder "README.md")) st) as [e|] eqn:Hopen.
  { by rewrite (generate_report_refused _ _ _ _ _ _ _ e). }
  assert ((∃ s, insights = JStr s) ∨ (∀ s, insights ≠ JStr s)) as [[s ->]|Hns]
    by (destruct insights; eauto).
  - destruct (generate_report_run lib w folder filename summary missing_values
                correlation_matrix s st Hopen) as (st' & writes & -> & (F & _) & _).
    intros _. simpl. rewrite F, lookup_insert_eq. eauto.
  - by destruct (generate_report_not_text folder filename summary missing_values
                   correlation_matrix insights st Hopen Hns)
      as (st' & writes & -> & _).
Qed.

End ReportEdges.

(** X10.  A narrative that is not a string (the [null] a 200 answer may
    carry as content) makes the report writer raise TypeError after it
    has truncated README.md and written the title, the dataset name, the
    three tables and the heading of the narrative: the file is left cut
    short there, whatever it held before. *)
Theorem non_text_narrative_cuts_report_short (lib : Libs) (w : World)
    (folder filename : string) (summary : DataFrame) (missing_values : Series)
    (correlation_matrix : DataFrame) (insights : json) (st : State) :
  let readme := path_join folder "README.md" in
  fault w (OpenW readme) st = None →
  (∀ s, insights ≠ JStr s) →
  let run := generate_report lib w folder filename summary missing_values
               correlation_matrix insights st in
  run.1 = Raise (Exn "TypeError" "unsupported operand type(s) for +")
  ∧ files run.2
    = <[readme := report_before_narrative lib filename summary missing_values
                    correlation_matrix]> (files st).
Proof.
  intros readme Hopen Hns run. subst run.
  destruct (generate_report_not_text lib w folder filename summary missing_values
              correlation_matrix insights st Hopen Hns)
    as (st' & writes & -> & (F & _) & J).
  simpl. by rewrite F, J.
Qed.

Lemma non_text_narrative_witness :
  let w := Demo.world None (λ _, Demo.server_error) Demo.nothing_refused in
  let old := set_file "data/README.md" "an earlier report" Demo.disk in
  fault w (OpenW (path_join "data" "README.md")) old = None
  ∧ (generate_report Demo.lib w "data" "data.csv" Demo.ratings (isnull_sum Demo.ratings)
       (df_corr Demo.lib Demo.ratings) JNull old).1
    = Raise (Exn "TypeError" "unsupported operand type(s) for +").
Proof.
  intros w old. split; [reflexivity|].
  pose proof (non_text_narrative_cuts_report_short Demo.lib w "data" "data.csv"
                Demo.ratings (isnull_sum Demo.ratings) (df_corr Demo.lib Demo.ratings)
                JNull old eq_refl ltac:(discriminate)) as (R & _).
  exact R.
Defined.

(** X11.  Whatever the world and the narrative, the report writer
    changes no file but README.md, sends no request, and only opens and
    writes; when README.md cannot be opened, the exception of [open] is
    its outcome and no file is changed at all. *)
Theorem report_writer_touches_only_readme (lib : Libs) (w : World)
    (folder filename : string) (summary : DataFrame) (missing_values : Series)
    (correlation_matrix : DataFrame) (insights : json) (st : State) :
  let readme := path_join folder "README.md" in
  let run := generate_report lib w folder filename summary missing_values
               correlation_matrix insights st in
  (∀ p, p ≠ readme → files run.2 !! p = files st !! p)
  ∧ posts run.2 = posts st
  ∧ Forall (λ e, is_report_write e = true) (new_events st run.2)
  ∧ (∀ e, fault w (OpenW readme) st = Some e →
          run.1 = Raise e ∧ files run.2 = files st).
Proof.
  intros readme run. subst run.
  destruct (obeys_generate_report (λ e, is_report_write e = true) (λ p, p ≠ readme)
              lib w folder filename summary missing_values correlation_matrix insights)
    with (st := st) as [E _]; [done|done|tauto|].
  split; [destruct E as (_ & _ & _ & _ & K & _); exact K|].
  split; [eapply evolves_no_posts; [|exact E]; intros e; by destruct e|].
  split; [by apply (evolves_new_events _ _ _ _ E)|].
  intros e He. by rewrite (generate_report_refused lib w _ _ _ _ _ _ _ e).
Qed.

(** X12.  The embeds follow the disk, not the run: when the dataset has
    no [average_rating] column but the folder already holds a chart2.png,
    the Visualizer leaves that file alone and the report written
    afterwards embeds it. *)
Theorem stale_chart_is_embedded (lib : Libs) (w : World) (df : DataFrame)
    (folder filename : string) (summary : DataFrame) (missing_values : Series)
    (correlation_matrix : DataFrame) (insights : string) (st : State) :
  has_column "average_rating" df = false →
  is_Some (files st !! chart2_path folder) →
  let st1 := (generate_visualizations lib w df folder st).2 in
  fault w (OpenW (path_join folder "README.md")) st1 = None →
  files st1 !! chart2_path folder = files st !! chart2_path folder
  ∧ files (generate_report lib w folder filename summary missing_values
             correlation_matrix (JStr insights) st1).2 !! path_join folder "README.md"
    = Some (report_text lib filename summary missing_values correlation_matrix insights
              (path_exists (chart1_path folder) st1) true).
Proof.
  intros Hc Hex st1 Hopen.
  destruct (chart2_not_produced lib w df folder st Hc) as [_ K]. fold st1 in K.
  split; [done|].
  destruct (generate_report_run lib w folder filename summary missing_values
              correlation_matrix insights st1 Hopen) as (st' & writes & -> & (F & _) & J).
  simpl. rewrite F, lookup_insert_eq, J. do 2 f_equal.
  unfold path_exists. rewrite K. by rewrite bool_decide_eq_true_2.
Qed.

Lemma stale_chart_witness :
  let lib := Demo.lib_for Demo.titles in
  let w := Demo.world None (λ _, Demo.server_error) Demo.nothing_refused in
  let st := set_file "data/chart2.png" "an earlier chart" Demo.disk in
  let st1 := (generate_visualizations lib w Demo.titles "data" st).2 in
  has_column "average_rating" Demo.titles = false
  ∧ files (generate_report lib w "data" "data.csv" Demo.titles (isnull_sum Demo.titles)
             (df_corr lib Demo.titles) (JStr "No ratings.") st1).2
      !! "data/README.md"%string
    = Some (report_text lib "data.csv" Demo.titles (isnull_sum Demo.titles)
              (df_corr lib Demo.titles) "No ratings." false true).
Proof.
  intros lib w st st1. split; [reflexivity|].
  pose proof (stale_chart_is_embedded lib w Demo.titles "data" "data.csv" Demo.titles
                (isnull_sum Demo.titles) (df_corr lib Demo.titles) "No ratings." st
                eq_refl ltac:(by eexists) eq_refl) as (_ & R).
  exact R.
Defined.

(** * More of the code: the Visualizer and the run around it *)

(** X13.  Whatever the world, the Visualizer changes no file but the two
    chart files of its folder, sends no request and does nothing but
    plotting calls; a chart file it has not been asked to save (empty
    correlation matrix, no column) keeps the bytes it had. *)
Theorem visualizer_touches_only_charts (lib : Libs) (w : World) (df : DataFrame)
    (folder : string) (st : State) :
  let run := generate_visualizations lib w df folder st in
  (∀ p, p ≠ chart1_path folder → p ≠ chart2_path folder →
        files run.2 !! p = files st !! p)
  ∧ posts run.2 = posts st
  ∧ Forall (λ e, is_plot e = true) (new_events st run.2)
  ∧ (df_empty (df_corr lib df) = true →
     files run.2 !! chart1_path folder = files st !! chart1_path folder)
  ∧ (has_column "average_rating" df = false →
     files run.2 !! chart2_path folder = files st !! chart2_path folder).
Proof.
  intros run. subst run.
  destruct (obeys_generate_visualizations (λ e, is_plot e = true)
              (λ p, p ≠ chart1_path folder ∧ p ≠ chart2_path folder) lib w df folder)
    with (st := st) as [E _]; [done|tauto|tauto|].
  split; [destruct E as (_ & _ & _ & _ & K & _); intros p H1 H2; by apply K|].
  split; [eapply evolves_no_posts; [|exact E]; intros e; by destruct e|].
  split; [by apply (evolves_new_events _ _ _ _ E)|].
  split.
  - intros H. by apply chart1_not_produced.
  - intros H. by apply chart2_not_produced.
Qed.

Section PlottingFailure.

Context (lib : Libs) (w : World).

Lemma makedirs_returns path st :
  (makedirs w path st).1 = Return tt → path ∈ dirs (makedirs w path st).2.
Proof.
  unfold makedirs, perform. destruct (fault w (Makedirs path) st); [done|].
  intros _. simpl. set_solver.
Qed.

(** The run up to the Visualizer, when the dataset loads and the folder
    can be made. *)
Lemma main_until_visualizer st df :
  length (argv w) = 2%nat →
  (load_data lib (dataset_arg w) st).1 = Return df →
  let folder := output_folder (dataset_arg w) in
  let st1 := (load_data lib (dataset_arg w) st).2 in
  (makedirs w folder st1).1 = Return tt →
  let st2 := (makedirs w folder st1).2 in
  main lib w st
  = bind (generate_visualizations lib w df folder)
      (λ _, insight_and_report lib w (dataset_arg w) df (describe_all lib df)
              (isnull_sum df) (df_corr lib df)) st2.
Proof.
  intros Hargv Hload folder st1 Hmk st2. subst st1 st2.
  unfold main. fold (dataset_arg w). fold folder.
  rewrite bool_decide_eq_false_2 by (intros H; by apply H).
  rewrite bind_run.
  pose proof (load_data_columns lib (dataset_arg w) st df Hload) as Hcols.
  destruct (load_data lib (dataset_arg w) st) as [r st1]. simpl in Hload, Hmk |- *. subst r.
  rewrite bind_run. unfold lift, analyze_data, df_describe.
  rewrite bool_decide_eq_false_2 by done. cbn [obind]. cbv beta iota zeta.
  rewrite bind_run.
  destruct (makedirs w folder st1) as [r st2]. simpl in Hmk |- *. by subst r.
Qed.

End PlottingFailure.

(** X14.  A plotting call that raises ends the run: when the dataset
    loads and the folder is made but the Visualizer raises, that
    exception is the outcome of the run (status 1); the folder stays, no
    request was sent and README.md was neither opened nor changed. *)
Theorem plotting_failure_ends_the_run (lib : Libs) (w : World) (st : State)
    (df : DataFrame) (e : exn) :
  length (argv w) = 2%nat →
  let folder := output_folder (dataset_arg w) in
  let st1 := (load_data lib (dataset_arg w) st).2 in
  let st2 := (makedirs w folder st1).2 in
  let viz := generate_visualizations lib w df folder st2 in
  (load_data lib (dataset_arg w) st).1 = Return df →
  (makedirs w folder st1).1 = Return tt →
  viz.1 = Raise e →
  main lib w st = (Raise e, viz.2)
  ∧ folder ∈ dirs viz.2
  ∧ posts viz.2 = posts st
  ∧ Forall (λ e, is_report_write e = false ∧ is_post e = false) (new_events st viz.2)
  ∧ files viz.2 !! path_join folder "README.md" = files st !! path_join folder "README.md".
Proof.
  intros Hargv folder st1 st2 viz Hload Hmk Hviz.
  set (ok := λ e, is_report_write e = false ∧ is_post e = false).
  set (keep := λ p : string, p = path_join folder "README.md").
  assert (evolves ok keep st st1) as E1.
  { by destruct (obeys_load_data ok keep lib (dataset_arg w)) with (st := st). }
  assert (evolves ok keep st1 st2) as E2.
  { by destruct (obeys_makedirs ok keep w folder) with (st := st1). }
  assert (evolves ok keep st2 viz.2) as E3.
  { destruct (obeys_generate_visualizations ok keep lib w df folder) with (st := st2)
      as [E _]; [done|apply readme_not_chart1|apply readme_not_chart2|done]. }
  assert (evolves ok keep st viz.2) as E.
  { eapply evolves_trans; [|done]. by eapply evolves_trans. }
  split.
  { rewrite (main_until_visualizer lib w st df Hargv Hload Hmk). fold folder st1 st2.
    rewrite bind_run. fold viz. destruct viz as [r st3]. simpl in Hviz. by subst r. }
  split.
  { destruct E3 as (_ & _ & _ & _ & _ & D). apply D. by apply makedirs_returns. }
  split; [eapply evolves_no_posts; [|exact E]; by intros ? [_ ?]|].
  split; [by apply (evolves_new_events _ _ _ _ E)|].
  destruct E as (_ & _ & _ & _ & K & _). by apply K.
Qed.

Lemma plotting_failure_witness :
  let w := Demo.world (Some "sk-test"%string) (λ _, Demo.answer Demo.story)
             DemoFaults.heatmap_fails in
  (load_data Demo.lib (dataset_arg w) Demo.disk).1 = Return Demo.ratings
  ∧ (main Demo.lib w Demo.disk).1 = Raise (Exn "ValueError" "zero-size array")
  ∧ posts (main Demo.lib w Demo.disk).2 = 0%nat.
Proof.
  intros w.
  assert ((load_data Demo.lib (dataset_arg w) Demo.disk).1 = Return Demo.ratings) as L
    by reflexivity.
  split; [exact L|].
  pose proof (plotting_failure_ends_the_run Demo.lib w Demo.disk Demo.ratings
                (Exn "ValueError" "zero-size array") eq_refl L eq_refl eq_refl)
    as (M & _ & P & _).
  rewrite M. split; [reflexivity | exact P].
Defined.

(** * More of the code: the run from end to end *)

Lemma count_sleeps_app (l1 l2 : list event) :
  count_sleeps (l1 ++ l2) = (count_sleeps l1 + count_sleeps l2)%nat.
Proof. unfold count_sleeps. by rewrite filter_app, length_app. Qed.

Lemma count_sleeps_none (evs : list event) :
  Forall (λ e, is_post e = false ∧ is_sleep e = false) evs → count_sleeps evs = 0%nat.
Proof.
  unfold count_sleeps. induction 1 as [|e evs [_ He] _ IH]; [done|].
  by rewrite filter_cons_False by congruence.
Qed.

Lemma count_posts_quiet (evs : list event) :
  Forall (λ e, is_post e = false ∧ is_sleep e = false) evs → count_posts evs = 0%nat.
Proof. intros H. apply count_posts_none. eapply Forall_impl; [done|]. by intros ? [? _]. Qed.

Section Shape.

Context (lib : Libs) (w : World).

(** The log of any run: events that are neither requests nor sleeps, then
    possibly the log of the attempts, then again events that are neither;
    and how a run that ends with status 0 looks. *)
Lemma main_shape st :
  let folder := output_folder (dataset_arg w) in
  let run := main lib w st in
  ∃ new1 mid new3,
    trace run.2 = trace st ++ new1 ++ mid ++ new3
    ∧ Forall (λ e, is_post e = false ∧ is_sleep e = false) new1
    ∧ Forall (λ e, is_post e = false ∧ is_sleep e = false) new3
    ∧ (mid = []
       ∨ ∃ api_key prompt k,
           getenv w "OPENAI_API_KEY" = Some api_key ∧ api_key ≠ ""%string
           ∧ (k ≤ 2)%nat ∧ mid = attempts_log (the_post api_key prompt) k)
    ∧ posts run.2 = (posts st + count_posts mid)%nat
    ∧ (exit_status run.1 = 0%Z ∨ exit_status run.1 = 1%Z)
    ∧ (exit_status run.1 = 0%Z →
       mid ≠ []
       ∧ is_Some (files run.2 !! path_join folder "README.md")
       ∧ folder ∈ dirs run.2
       ∧ last (trace run.2) = Some (Print (completion_message folder))).
Proof.
  intros folder run. subst run.
  set (quiet := λ e, is_post e = false ∧ is_sleep e = false).
  destruct (main_prefix lib w quiet (λ _, False) st)
    as [[E X]|(df & summary & mv & cm & st1 & st2 & st3 & _ & _ & _ & Mk & Vz & E & ->)];
    try done; auto.
  { destruct E as (new & T & F & P & _).
    exists new, [], []. rewrite app_nil_r. simpl.
    split; [done|]. split; [done|]. split; [apply Forall_nil_2|]. split; [by left|].
    split; [rewrite P, count_posts_quiet by done; unfold count_posts; simpl; lia|].
    split; [by right|]. rewrite X. done. }
  fold folder in Mk, Vz.
  assert (folder ∈ dirs st3) as Hdir.
  { destruct (obeys_generate_visualizations (λ _, True) (λ _, False) lib w df folder)
      with (st := st2) as [(_ & _ & _ & _ & _ & D) _]; [done|tauto|tauto|].
    rewrite Vz in D. apply D.
    pose proof (makedirs_returns w folder st1) as H. rewrite Mk in H. by apply H. }
  destruct E as (new1 & T1 & F1 & P1 & _).
  rewrite count_posts_quiet in P1 by done.
  unfold insight_and_report. fold folder. rewrite bind_run.
  destruct (getenv w "OPENAI_API_KEY") as [api_key|] eqn:Hk;
    [destruct (decide (api_key = ""%string)) as [->|Hne]|].
  - (* an empty credential *)
    unfold get_openai_response. rewrite Hk. simpl.
    exists (new1 ++ [Print "Error: OPENAI_API_KEY not set."]), [], [].
    rewrite T1, !app_nil_r, <- app_assoc.
    split; [done|]. split; [apply Forall_app; split; [done|by repeat constructor]|].
    split; [apply Forall_nil_2|]. split; [by left|].
    split; [unfold count_posts; simpl; lia|]. split; [by right|done].
  - (* a credential: the attempts *)
    rewrite (get_openai_response_key w api_key) by done.
    set (prompt := make_prompt lib df summary mv cm).
    destruct (retry_loop_log w api_url (request_headers api_key) (request_data prompt) 2 st3)
      as (k & Hle & T & P & Fi & D).
    destruct (obeys_retry_loop (λ _, True) (λ _, False) 2
                (chat w api_url (request_headers api_key) (request_data prompt)) 2 I
                (obeys_chat _ _ w _ _ _ I) st3) as [_ X].
    assert (attempts_log (the_post api_key prompt) k = []
            ∨ ∃ key p k', getenv w "OPENAI_API_KEY" = Some key ∧ key ≠ ""%string
                          ∧ (k' ≤ 2)%nat
                          ∧ attempts_log (the_post api_key prompt) k
                            = attempts_log (the_post key p) k') as Hor.
    { right. by exists api_key, prompt, k. }
    assert (attempts_log (the_post api_key prompt) k ≠ []) as Hmid by (by destruct k).
    destruct (retry_loop 2 _ 2 st3) as [[insights|e|c] st4]; simpl in T, P, Fi, D, X.
    + (* the narrative is there: the report *)
      rewrite bind_run.
      pose proof (generate_report_returned lib w folder (dataset_arg w) summary mv cm
                    insights st4) as Hrd.
      destruct (obeys_generate_report quiet (λ _, False) lib w folder (dataset_arg w)
                  summary mv cm insights) with (st := st4)
        as [(new3 & T3 & F3 & P3 & _ & D3) X3]; [done|done|tauto|].
      rewrite count_posts_quiet in P3 by done.
      destruct (generate_report lib w folder (dataset_arg w) summary mv cm insights st4)
        as [[[]|e|c] st5]; simpl in *.
      * exists new1, (attempts_log (the_post api_key prompt) k),
          (new3 ++ [Print (completion_message folder)]).
        rewrite T3, T, T1, <- !app_assoc.
        split; [done|]. split; [done|].
        split; [apply Forall_app; split; [done|by repeat constructor]|].
        split; [right; by exists api_key, prompt, k|].
        split; [unfold the_post; rewrite count_posts_attempts_log; lia|].
        split; [by left|]. intros _. split; [done|]. split; [by apply Hrd|].
        split; [apply D3; by rewrite D|].
        rewrite !app_assoc. apply last_snoc.
      * exists new1, (attempts_log (the_post api_key prompt) k), new3.
        rewrite T3, T, T1, <- !app_assoc.
        do 4 (split; [first [done | apply Forall_nil_2 | right; by exists api_key, prompt, k]|]).
        split; [unfold the_post; rewrite count_posts_attempts_log; lia|].
        split; [by right|done].
      * exists new1, (attempts_log (the_post api_key prompt) k), new3.
        rewrite T3, T, T1, <- !app_assoc.
        do 4 (split; [first [done | apply Forall_nil_2 | right; by exists api_key, prompt, k]|]).
        split; [unfold the_post; rewrite count_posts_attempts_log; lia|].
        rewrite (X3 c eq_refl). split; [by right|done].
    + exists new1, (attempts_log (the_post api_key prompt) k), []. simpl.
      rewrite T, T1, app_nil_r, <- !app_assoc.
      do 4 (split; [first [done | apply Forall_nil_2 | right; by exists api_key, prompt, k]|]).
      split; [unfold the_post; rewrite count_posts_attempts_log; lia|].
      split; [by right|done].
    + exists new1, (attempts_log (the_post api_key prompt) k), []. simpl.
      rewrite T, T1, app_nil_r, <- !app_assoc.
      do 4 (split; [first [done | apply Forall_nil_2 | right; by exists api_key, prompt, k]|]).
      split; [unfold the_post; rewrite count_posts_attempts_log; lia|].
      rewrite (X c eq_refl). split; [by right|done].
  - (* no credential *)
    rewrite get_openai_response_unset by done. simpl.
    exists (new1 ++ [Print "Error: OPENAI_API_KEY not set."]), [], [].
    rewrite T1, !app_nil_r, <- app_assoc.
    split; [done|]. split; [apply Forall_app; split; [done|by repeat constructor]|].
    split; [apply Forall_nil_2|]. split; [by left|].
    split; [unfold count_posts; simpl; lia|]. split; [by right|done].
Qed.

End Shape.

(** X15.  Whatever the world, a run ends with status 0 or 1, sends at
    most three requests, sleeps at most twice, and each sleep lasts 2. *)
Theorem run_is_bounded (lib : Libs) (w : World) (st : State) :
  let run := main lib w st in
  (exit_status run.1 = 0%Z ∨ exit_status run.1 = 1%Z)
  ∧ (posts run.2 ≤ posts st + 3)%nat
  ∧ (count_sleeps (new_events st run.2) ≤ 2)%nat
  ∧ Forall (λ e, is_sleep e = true → e = Sleep 2) (new_events st run.2).
Proof.
  intros run. subst run.
  destruct (main_shape lib w st) as (new1 & mid & new3 & T & F1 & F3 & Hmid & P & X & _).
  rewrite (new_events_app _ _ _ T), !count_sleeps_app.
  rewrite (count_sleeps_none new1), (count_sleeps_none new3) by done.
  split; [done|].
  destruct Hmid as [->|(api_key & prompt & k & _ & _ & Hk & ->)].
  - split; [rewrite P; unfold count_posts; simpl; lia|]. split; [simpl; lia|].
    rewrite app_nil_l. apply Forall_app. split.
    + eapply Forall_impl; [exact F1|]. intros e [_ H]. congruence.
    + eapply Forall_impl; [exact F3|]. intros e [_ H]. congruence.
  - unfold the_post in *. rewrite count_posts_attempts_log in P.
    rewrite count_sleeps_attempts_log.
    split; [lia|]. split; [lia|].
    apply Forall_app. split; [|apply Forall_app; split].
    + eapply Forall_impl; [exact F1|]. intros e [_ H]. congruence.
    + clear. induction k as [|k IH]; simpl.
      * apply Forall_cons_2; [done | apply Forall_nil_2].
      * apply Forall_cons_2; [done|]. apply Forall_cons_2; [done | exact IH].
    + eapply Forall_impl; [exact F3|]. intros e [_ H]. congruence.
Qed.

(** X16.  A run that ends with status 0 had a non-empty credential, sent
    at least one request, made the output folder, left a README.md in it
    and printed the completion message last. *)
Theorem successful_run_has_reported (lib : Libs) (w : World) (st : State) :
  exit_status (main lib w st).1 = 0%Z →
  let folder := output_folder (dataset_arg w) in
  let run := main lib w st in
  (∃ api_key, getenv w "OPENAI_API_KEY" = Some api_key ∧ api_key ≠ ""%string)
  ∧ (posts st < posts run.2 ≤ posts st + 3)%nat
  ∧ folder ∈ dirs run.2
  ∧ is_Some (files run.2 !! path_join folder "README.md")
  ∧ last (trace run.2) = Some (Print (completion_message folder)).
Proof.
  intros X0 folder run. subst run.
  destruct (main_shape lib w st) as (new1 & mid & new3 & T & F1 & F3 & Hmid & P & _ & S).
  destruct (S X0) as (Hne & R & D & L).
  destruct Hmid as [->|(api_key & prompt & k & Hk & Hkey & Hle & ->)]; [done|].
  unfold the_post in P. rewrite count_posts_attempts_log in P.
  split; [by exists api_key|]. split; [lia|]. done.
Qed.

Lemma successful_run_witness :
  let w := Demo.world (Some "sk-test"%string) (λ _, Demo.answer Demo.story)
             Demo.nothing_refused in
  exit_status (main Demo.lib w Demo.disk).1 = 0%Z
  ∧ is_Some (files (main Demo.lib w Demo.disk).2 !! "data/README.md"%string)
  ∧ last (trace (main Demo.lib w Demo.disk).2) = Some (Print (completion_message "data")).
Proof.
  intros w.
  assert (exit_status (main Demo.lib w Demo.disk).1 = 0%Z) as X by reflexivity.
  split; [exact X|].
  pose proof (successful_run_has_reported Demo.lib w Demo.disk X) as (_ & _ & _ & R & L).
  exact (conj R L).
Defined.

(** * More of the code: the output folder *)

Lemma substring_all (s : string) : String.substring 0 (String.length s) s = s.
Proof. induction s as [|a r IH]; [done|]. simpl. by rewrite IH. Qed.

Lemma substring_split (n : nat) (s : string) :
  String.substring 0 n s +:+ String.substring n (String.length s - n) s = s.
Proof.
  revert n. induction s as [|a r IH]; intros [|n]; try done.
  - simpl String.length. rewrite Nat.sub_0_r.
    change (String.substring 0 0 (String a r)) with ""%string.
    change ("" +:+ String.substring 0 (S (String.length r)) (String a r))
      with (String.substring 0 (S (String.length r)) (String a r)).
    apply (substring_all (String a r)).
  - simpl. change (String a (String.substring 0 n r
                             +:+ String.substring n (String.length r - n) r)
                   = String a r).
    by rewrite IH.
Qed.

Lemma slice_split (i : Z) (p : string) : slice_to i p +:+ slice_from i p = p.
Proof. apply substring_split. Qed.

Lemma slice_from_0 (s : string) : slice_from 0 s = s.
Proof. unfold slice_from. simpl Z.to_nat. rewrite Nat.sub_0_r. apply substring_all. Qed.

Lemma slice_from_cons (z : Z) (a : ascii) (r : string) :
  (1 ≤ z)%Z → slice_from z (String a r) = slice_from (z - 1) r.
Proof.
  intros Hz. unfold slice_from.
  replace (Z.to_nat z) with (S (Z.to_nat (z - 1))) by lia. done.
Qed.

Lemma has_char_substring_0 (c : ascii) (n : nat) (s : string) :
  has_char c s = false → has_char c (String.substring 0 n s) = false.
Proof.
  revert n. induction s as [|a r IH]; intros [|n]; simpl; try done.
  intros [H1 H2]%orb_false_iff. rewrite H1. simpl. by apply IH.
Qed.

Lemma has_char_rev_app (c : ascii) (s acc : string) :
  has_char c (String.rev_app s acc) = has_char c s || has_char c acc.
Proof.
  revert acc. induction s as [|a r IH]; intros acc; [done|].
  simpl. rewrite IH. simpl. by destruct (bool_decide (a = c)), (has_char c r).
Qed.

(** Where [rfind] points: either the character does not occur and the
    result is [last], or nothing of it occurs after the position found. *)
Lemma rfind_from_spec (c : ascii) (s : string) (i last : Z) :
  (rfind_from c s i last = last ∧ has_char c s = false)
  ∨ ((i ≤ rfind_from c s i last < i + Z.of_nat (String.length s))%Z
     ∧ has_char c (slice_from (rfind_from c s i last - i + 1) s) = false).
Proof.
  revert i last. induction s as [|a r IH]; intros i last; [by left|].
  simpl rfind_from.
  destruct (IH (i + 1)%Z (if decide (a = c) then i else last)) as [[E N]|[B N]].
  - rewrite E. destruct (decide (a = c)) as [->|Hne].
    + right. split; [simpl String.length; lia|].
      replace (i - i + 1)%Z with 1%Z by lia.
      rewrite slice_from_cons by lia. by rewrite slice_from_0.
    + left. split; [done|]. simpl. by rewrite N, bool_decide_eq_false_2.
  - right. split; [simpl String.length; lia|].
    rewrite slice_from_cons by lia.
    by replace (rfind_from c r (i + 1) (if decide (a = c) then i else last) - i + 1 - 1)%Z
      with (rfind_from c r (i + 1) (if decide (a = c) then i else last) - (i + 1) + 1)%Z
      by lia.
Qed.

Lemma basename_no_slash (p : string) : has_char "/" (basename p) = false.
Proof.
  unfold basename, rfind.
  destruct (rfind_from_spec "/" p 0 (-1)) as [[-> N]|[_ N]].
  - by rewrite slice_from_0.
  - by replace (rfind_from "/" p 0 (-1) - 0 + 1)%Z with (rfind_from "/" p 0 (-1) + 1)%Z
      in N by lia.
Qed.

Lemma splitext_root_no_slash (p : string) :
  has_char "/" p = false → has_char "/" (splitext p).1 = false.
Proof.
  intros H. unfold splitext. destruct (_ && _); simpl; [|done].
  by apply has_char_substring_0.
Qed.

Lemma no_slash_no_endswith (a : string) :
  has_char "/" a = false → endswith "/" a = false.
Proof.
  intros H. unfold endswith.
  pose proof (has_char_rev_app "/" a "") as R. rewrite H in R. simpl in R.
  change (String.rev_app a "") with (String.rev a) in R.
  destruct (String.rev a) as [|c r]; [done|].
  simpl in R. apply orb_false_iff in R as [R _]. apply bool_decide_eq_false in R.
  change (String.prefix (String.rev "/") (String c r))
    with (if ascii_dec "/" c then String.prefix "" r else false).
  destruct (ascii_dec "/" c) as [E|E]; [by destruct R|done].
Qed.

(** X17.  The output folder is a single path component: it holds no
    slash, however deep the dataset lies, so the folder is made in the
    working directory and not beside the dataset; root and extension of
    the base name make up the base name again; and unless the folder name
    is empty README.md is written to the file the completion message
    names, the folder, a slash and README.md, next to the two charts. *)
Theorem output_folder_is_one_component (filename : string) :
  has_char "/" (output_folder filename) = false
  ∧ (splitext (basename filename)).1 +:+ (splitext (basename filename)).2
    = basename filename
  ∧ (output_folder filename ≠ ""%string →
     path_join (output_folder filename) "README.md"
     = output_folder filename +:+ "/README.md").
Proof.
  assert (has_char "/" (output_folder filename) = false) as N.
  { unfold output_folder. apply splitext_root_no_slash, basename_no_slash. }
  split; [done|]. split.
  - unfold splitext. destruct (_ && _); simpl.
    + apply slice_split.
    + apply string_app_nil_r.
  - intros Hne. unfold path_join. simpl String.prefix. cbv iota.
    by rewrite bool_decide_eq_false_2, no_slash_no_endswith.
Qed.

Example output_folder_of_nested_dataset :
  output_folder "/srv/data/2024/goodreads.csv" = "goodreads"%string
  ∧ path_join (output_folder "/srv/data/2024/goodreads.csv") "README.md"
    = "goodreads/README.md"%string.
Proof. split; reflexivity. Qed.

(** * More of the code: the order of the stages *)

Section Order.

Context (lib : Libs) (w : World).

Lemma obeys_insight_and_report ok keep filename df summary mv cm :
  (∀ l, ok (Print l)) → (∀ n, ok (Sleep n)) → (∀ u h d, ok (HttpPost u h d)) →
  (∀ p, ok (OpenW p)) → (∀ p c, ok (FileWrite p c)) →
  ¬ keep (path_join (output_folder filename) "README.md") →
  obeys ok keep (insight_and_report lib w filename df summary mv cm).
Proof.
  intros Hp Hs Hh Ho Hw Hk. unfold insight_and_report.
  apply obeys_bind; [by apply obeys_get_openai_response|]. intros insights.
  apply obeys_bind; [by apply obeys_generate_report|]. intros _.
  by apply obeys_print.
Qed.

End Order.

Lemma attempts_log_talk url headers data k :
  Forall (λ e, is_post e = true ∨ is_sleep e = true)
    (attempts_log (HttpPost url headers data) k).
Proof.
  induction k as [|k IH]; simpl.
  - apply Forall_cons_2; [by left | apply Forall_nil_2].
  - apply Forall_cons_2; [by left|]. apply Forall_cons_2; [by right | exact IH].
Qed.

(** In a list made of a part without [P] followed by a part without [Q],
    whatever satisfies [Q] comes before whatever satisfies [P]. *)
Lemma split_order {A} (P Q : A → Prop) (l1 l2 : list A) (i j : nat) (x y : A) :
  Forall (λ e, ¬ P e) l1 → Forall (λ e, ¬ Q e) l2 →
  (l1 ++ l2) !! i = Some x → P x →
  (l1 ++ l2) !! j = Some y → Q y →
  (j < i)%nat.
Proof.
  intros F1 F2 Hx Px Hy Qy.
  assert (length l1 ≤ i)%nat.
  { destruct (decide (i < length l1)%nat) as [Hlt|]; [|lia].
    rewrite lookup_app_l in Hx by done.
    rewrite Forall_forall in F1. destruct (F1 x); [|done].
    by eapply list_elem_of_lookup_2. }
  assert (j < length l1)%nat; [|lia].
  destruct (decide (j < length l1)%nat) as [|Hge]; [done|].
  rewrite lookup_app_r in Hy by lia.
  rewrite Forall_forall in F2. destruct (F2 y); [|done].
  by eapply list_elem_of_lookup_2.
Qed.

Section ThreeParts.

Context (lib : Libs) (w : World).

(** The log of any run in three parts: preparation and printing, then
    requests and sleeps only, then opening, writing and printing. *)
Lemma main_three_parts st :
  ∃ prep talk report,
    new_events st (main lib w st).2 = prep ++ talk ++ report
    ∧ Forall (λ e, is_post e = false ∧ is_sleep e = false ∧ is_report_write e = false) prep
    ∧ Forall (λ e, is_post e = true ∨ is_sleep e = true) talk
    ∧ Forall (λ e, is_preparation e = false ∧ is_post e = false ∧ is_sleep e = false) report.
Proof.
  set (ok1 := λ e, is_post e = false ∧ is_sleep e = false ∧ is_report_write e = false).
  set (ok3 := λ e, is_preparation e = false ∧ is_post e = false ∧ is_sleep e = false).
  destruct (main_prefix lib w ok1 (λ _, False) st)
    as [[E _]|(df & summary & mv & cm & st1 & st2 & st3 & _ & _ & _ & _ & _ & E & ->)];
    try done; auto.
  { apply evolves_new_events in E as [_ F].
    exists (new_events st (main lib w st).2), [], []. rewrite !app_nil_r.
    split; [done|]. split; [done|]. split; apply Forall_nil_2. }
  destruct E as (prep & T1 & F1 & _).
  unfold insight_and_report. rewrite bind_run.
  set (rest := λ insights : json,
         bind (generate_report lib w (output_folder (dataset_arg w)) (dataset_arg w)
                 summary mv cm insights)
           (λ _, print ("✅ Analysis complete. Output saved in `"
                        +:+ output_folder (dataset_arg w)
                        +:+ "/README.md` and PNG files."))%string).
  assert (∀ insights, obeys ok3 (λ _, False) (rest insights)) as Hrest.
  { intros insights. apply obeys_bind.
    - apply obeys_generate_report; [by intros | by intros | tauto].
    - intros _. by apply obeys_print. }
  destruct (getenv w "OPENAI_API_KEY") as [api_key|] eqn:Hk;
    [destruct (decide (api_key = ""%string)) as [->|Hne]|].
  - unfold get_openai_response. rewrite Hk. simpl.
    exists prep, [], [Print "Error: OPENAI_API_KEY not set."].
    split; [apply new_events_app; simpl; by rewrite T1, <- app_assoc|].
    split; [done|]. split; [apply Forall_nil_2|]. by repeat constructor.
  - rewrite (get_openai_response_key w api_key) by done.
    destruct (retry_loop_log w api_url (request_headers api_key)
                (request_data (make_prompt lib df summary mv cm)) 2 st3)
      as (k & _ & T & _).
    pose proof (attempts_log_talk api_url (request_headers api_key)
                  (request_data (make_prompt lib df summary mv cm)) k) as F2.
    destruct (retry_loop 2 _ 2 st3) as [[insights|e|c] st4]; simpl in T.
    + destruct (Hrest insights st4) as [(report & T3 & F3 & _) _].
      exists prep, (attempts_log (HttpPost api_url (request_headers api_key)
                                    (request_data (make_prompt lib df summary mv cm))) k),
        report.
      split; [|done]. apply new_events_app.
      fold (rest insights). rewrite T3, T, T1. by rewrite <- !app_assoc.
    + eexists prep, _, []. rewrite app_nil_r. simpl.
      split; [apply new_events_app; by rewrite T, T1, <- app_assoc|].
      split; [done|]. split; [exact F2 | apply Forall_nil_2].
    + eexists prep, _, []. rewrite app_nil_r. simpl.
      split; [apply new_events_app; by rewrite T, T1, <- app_assoc|].
      split; [done|]. split; [exact F2 | apply Forall_nil_2].
  - rewrite get_openai_response_unset by done. simpl.
    exists prep, [], [Print "Error: OPENAI_API_KEY not set."].
    split; [apply new_events_app; simpl; by rewrite T1, <- app_assoc|].
    split; [done|]. split; [apply Forall_nil_2|]. by repeat constructor.
Qed.

End ThreeParts.

(** X18.  The stages do not interleave.  The log of any run is made of
    three parts in this order: a first without any request, sleep,
    opening of or writing to a file; a second of requests and sleeps
    only; a third without any reading of the CSV, making of a folder,
    plotting call, request or sleep.  So in every run each reading,
    folder creation and plotting call comes before each request, and
    each request before each opening of and writing to the report. *)
Theorem stages_do_not_interleave (lib : Libs) (w : World) (st : State) :
  let evs := new_events st (main lib w st).2 in
  (∃ prep talk report,
     evs = prep ++ talk ++ report
     ∧ Forall (λ e, is_post e = false ∧ is_sleep e = false ∧ is_report_write e = false)
         prep
     ∧ Forall (λ e, is_post e = true ∨ is_sleep e = true) talk
     ∧ Forall (λ e, is_preparation e = false ∧ is_post e = false ∧ is_sleep e = false)
         report)
  ∧ (∀ i j e1 e2,
       evs !! i = Some e1 → evs !! j = Some e2 →
       is_preparation e1 = true → is_post e2 = true → (i < j)%nat)
  ∧ (∀ i j e1 e2,
       evs !! i = Some e1 → evs !! j = Some e2 →
       is_post e1 = true → is_report_write e2 = true → (i < j)%nat).
Proof.
  intros evs. subst evs.
  destruct (main_three_parts lib w st) as (prep & talk & report & -> & F1 & F2 & F3).
  split; [by exists prep, talk, report|]. split.
  - intros i j e1 e2 H1 H2 P1 P2.
    apply (split_order (λ e, is_post e = true) (λ e, is_preparation e = true)
             prep (talk ++ report) j i e2 e1); try done.
    + eapply Forall_impl; [exact F1|]. intros e (H & _). congruence.
    + apply Forall_app. split.
      * eapply Forall_impl; [exact F2|]. intros e [H|H] Hp; by destruct e.
      * eapply Forall_impl; [exact F3|]. intros e (H & _). congruence.
  - intros i j e1 e2 H1 H2 P1 P2. rewrite app_assoc in H1, H2.
    apply (split_order (λ e, is_report_write e = true) (λ e, is_post e = true)
             (prep ++ talk) report j i e2 e1); try done.
    + apply Forall_app. split.
      * eapply Forall_impl; [exact F1|]. intros e (_ & _ & H). congruence.
      * eapply Forall_impl; [exact F2|]. intros e [H|H] Hp; by destruct e.
    + eapply Forall_impl; [exact F3|]. intros e (_ & H & _). congruence.
Qed.
